(** * Filter-consultant-chatbot: the chat orchestrator and its session lifecycle

    A shallow embedding of [mcpagent/database_agent.py] and of the hosted
    wrapper in [mcpagent/app.py].  The language-model calls, the
    [stdio_client] subprocess transport and the [ClientSession] protocol
    session are library code: every call into them is recorded in a trace
    and answered by an oracle, so that each lemma holds for whatever the
    libraries answer.  Everything between those calls (the credential gate,
    the prompts, the clarification test, the [try]/[except]/[finally]
    skeleton, [DatabaseAgent.cleanup]) is translated from the source. *)

From Stdlib Require Import String Ascii List Bool Arith Lia.
From stdpp Require Import base option list strings gmap fin_maps.

Local Open Scope string_scope.

(** ** Python strings *)

Module PyStr.

Definition nl : string := String "010"%char EmptyString.
Definition dq : string := String "034"%char EmptyString.

(** [str.isspace] on the code points below 256. *)
Definition is_space (c : ascii) : bool :=
  let n := nat_of_ascii c in
  ((9 <=? n)%nat && (n <=? 13)%nat) || ((28 <=? n)%nat && (n <=? 32)%nat)
  || (n =? 133)%nat || (n =? 160)%nat.

Fixpoint lstrip (s : string) : string :=
  match s with
  | EmptyString => EmptyString
  | String c s' => if is_space c then lstrip s' else s
  end.

Fixpoint rstrip (s : string) : string :=
  match s with
  | EmptyString => EmptyString
  | String c s' =>
      match rstrip s' with
      | EmptyString => if is_space c then EmptyString else String c EmptyString
      | r => String c r
      end
  end.

(** [s.strip()] *)
Definition strip (s : string) : string := rstrip (lstrip s).

Fixpoint all_space (s : string) : bool :=
  match s with
  | EmptyString => true
  | String c s' => is_space c && all_space s'
  end.

(** [needle in s] *)
Fixpoint contains (needle s : string) : bool :=
  String.prefix needle s
  || match s with
     | EmptyString => false
     | String _ s' => contains needle s'
     end.

(** [sep.join(l)] *)
Fixpoint join (sep : string) (l : list string) : string :=
  match l with
  | [] => EmptyString
  | [x] => x
  | x :: rest => x ++ sep ++ join sep rest
  end.

(** truthiness of a string: [not s] is [negb (truthy s)] *)
Definition truthy (s : string) : bool :=
  match s with EmptyString => false | _ => true end.

End PyStr.

(** ** Values, exceptions, results *)

(** The two kinds of value the repository stores in a turn and reads from a
    model response: a string, or [None]. *)
Inductive pyval :=
| VStr (s : string)
| VNone.

(** [str(v)], as an f-string renders it. *)
Definition py_str (v : pyval) : string :=
  match v with VStr s => s | VNone => "None" end.

Inductive exc_class :=
| TypeError | TimeoutError | KeyError | AttributeError | OtherError.

#[global] Instance exc_class_eq_dec : EqDecision exc_class.
Proof. solve_decision. Defined.

(** [Exc] is an instance of [Exception] ([str(e)] is [msg]);
    [Cancelled] is [asyncio.CancelledError], a [BaseException] that
    [except Exception] does not catch.  [by_timeout] tells whether the
    cancellation was requested by the enclosing [asyncio.wait_for]. *)
Inductive exn :=
| Exc (cls : exc_class) (msg : string)
| Cancelled (by_timeout : bool).

Definition is_Exception (e : exn) : bool :=
  match e with Exc _ _ => true | Cancelled _ => false end.

(** [str(e)] *)
Definition exn_str (e : exn) : string :=
  match e with Exc _ msg => msg | Cancelled _ => EmptyString end.

Inductive result (A : Type) :=
| Val (a : A)
| Raise (e : exn).
Arguments Val {A} a.
Arguments Raise {A} e.

(** A turn of the conversation and a query result are Python dicts. *)
Abbreviation turn := (gmap string pyval).
Abbreviation query_result := (gmap string string).

(** [{"response": r, "status": s}] *)
Definition mk_result (r s : string) : query_result :=
  <["response" := r]> (<["status" := s]> ∅).

(** ** Calls into the libraries, and the trace *)

Inductive agent_site := Analyzer | DbAgent.

Inductive spelling := ByModel | ByModelName | Positional.

Inductive level := Info | Warning | Error.

Record server_parameters := {
  sp_command : string;
  sp_args : list (option string)
}.

Inductive call :=
| OpenAIChat (site : agent_site) (sp : spelling)
| NewAgent (site : agent_site)
| Arun (site : agent_site) (prompt : string)
| StdioClientEnter (params : server_parameters)
| StdioClientExit
| NewClientSession
| ClientSessionEnter
| ClientSessionExit
| SessionInitialize
| NewMcpTools
| McpToolsInitialize
| SessionClose
| Sleep (millis : nat).

Inductive event :=
| EvCall (c : call)
| EvLog (lvl : level) (msg : string)
| EvCleanup.

(** What the process and the libraries look like from the orchestrator:
    the environment variables, the answer to every library call, and the
    renderings the log lines embed. *)
Record World := {
  environ : gmap string string;
  oracle : call -> result pyval;
  session_has_close : bool;
  platform : string;
  loop_policy : string;
  show_params : server_parameters -> string;
  format_exc : exn -> string
}.

(** The mutable objects an invocation can reach: the list behind
    [conversation_history] and the [session] field of its [DatabaseAgent]. *)
Record State := {
  trace : list event;
  history : list turn;
  agent_session : option unit
}.

Definition init_state (h : list turn) : State :=
  {| trace := []; history := h; agent_session := None |}.

(** ** The effect monad: state passing with exceptions *)

Definition M (A : Type) : Type := State -> State * result A.

Definition ret {A} (a : A) : M A := fun st => (st, Val a).

Definition bind {A B} (m : M A) (k : A -> M B) : M B :=
  fun st =>
    match m st with
    | (st', Val a) => k a st'
    | (st', Raise e) => (st', Raise e)
    end.

Definition raise {A} (e : exn) : M A := fun st => (st, Raise e).

Notation "'let*' x ':=' m 'in' k" := (bind m (fun x => k))
  (at level 10, x binder, m at level 100, k at level 200, only parsing).

Definition emit (ev : event) : M unit :=
  fun st => ({| trace := trace st ++ [ev]; history := history st;
                agent_session := agent_session st |}, Val tt).

Definition log (lvl : level) (msg : string) : M unit := emit (EvLog lvl msg).

Definition read_history : M (list turn) := fun st => (st, Val (history st)).

Definition read_session : M (option unit) :=
  fun st => (st, Val (agent_session st)).

Definition write_session (s : option unit) : M unit :=
  fun st => ({| trace := trace st; history := history st;
                agent_session := s |}, Val tt).

(** [except Exception as e: handler e] *)
Definition try_except {A} (body : M A) (handler : exn -> M A) : M A :=
  fun st =>
    match body st with
    | (st', Raise e) => if is_Exception e then handler e st' else (st', Raise e)
    | r => r
    end.

(** [except <class>: handler] *)
Definition try_except_class {A} (cls : exc_class) (body : M A) (handler : M A) : M A :=
  fun st =>
    match body st with
    | (st', Raise (Exc c m)) =>
        if decide (c = cls) then handler st' else (st', Raise (Exc c m))
    | r => r
    end.

(** [try: body finally: fin]: [fin] runs on every exit of [body]; an
    exception of [fin] replaces the pending result. *)
Definition try_finally {A} (body : M A) (fin : M unit) : M A :=
  fun st =>
    match body st with
    | (st', r) =>
        match fin st' with
        | (st'', Val _) => (st'', r)
        | (st'', Raise e) => (st'', Raise e)
        end
    end.

(** [async with mgr as x: body x].  When entering fails the body and the
    exit are skipped.  Otherwise the exit runs on every way out of the body;
    an exception of the exit replaces the pending result.  Neither
    [stdio_client] nor [ClientSession] swallows the exception in flight, so
    an exit that completes lets the body's result through. *)
Definition async_with {A B} (enter : M A) (exit : M unit) (body : A -> M B) : M B :=
  let* x := enter in try_finally (body x) exit.

Definition lift {A} (r : result A) : M A := fun st => (st, r).

Fixpoint mapM {A B} (f : A -> M B) (l : list A) : M (list B) :=
  match l with
  | [] => ret []
  | x :: l' => let* y := f x in let* ys := mapM f l' in ret (y :: ys)
  end.

(** [asyncio.wait_for(m, timeout=...)]: when the deadline fires the inner
    task is cancelled at its current await; once the cancellation has
    propagated out of it, [TimeoutError] is raised instead. *)
Definition wait_for {A} (m : M A) : M A :=
  fun st =>
    match m st with
    | (st', Raise (Cancelled true)) => (st', Raise (Exc TimeoutError EmptyString))
    | r => r
    end.

(** ** The program *)

Import PyStr.

Section Program.

Variable w : World.

(** A call into a library: recorded, then answered by the oracle. *)
Definition do (c : call) : M pyval :=
  let* _ := emit (EvCall c) in lift (oracle w c).

Definition do_ (c : call) : M unit :=
  let* _ := do c in ret tt.

(** [os.getenv(var)] *)
Definition getenv (var : string) : option string := environ w !! var.

Definition getenv_str (var : string) : string :=
  match getenv var with Some v => v | None => "None" end.

(** [d[k]] *)
Definition getitem (d : turn) (k : string) : M pyval :=
  match d !! k with
  | Some v => ret v
  | None => raise (Exc KeyError ("'" ++ k ++ "'"))
  end.

(** [response.content.strip()] *)
Definition content_strip (content : pyval) : M string :=
  match content with
  | VStr s => ret (strip s)
  | VNone => raise (Exc AttributeError "'NoneType' object has no attribute 'strip'")
  end.

(** *** [DatabaseAgent.cleanup] *)
Definition cleanup : M unit :=
  let* _ := emit EvCleanup in
  try_except
    (let* session := read_session in
     let* _ := (if bool_decide (is_Some session) && session_has_close w
                then do_ SessionClose else ret tt) in
     do_ (Sleep 100))
    (fun e => log Warning ("Cleanup warning: " ++ exn_str e)).

(** The model constructor, probed under three parameter spellings. *)
Definition openai_model (site : agent_site) : M pyval :=
  try_except_class TypeError (do (OpenAIChat site ByModel))
    (try_except_class TypeError (do (OpenAIChat site ByModelName))
       (do (OpenAIChat site Positional))).

(** *** [create_symptom_analyzer] *)
Definition create_symptom_analyzer : M unit :=
  try_except
    (let* _ := openai_model Analyzer in
     do_ (NewAgent Analyzer))
    (fun e =>
       let* _ := log Error ("Error creating symptom analyzer: " ++ exn_str e) in
       raise e).

(** *** [create_database_agent] *)
Definition create_database_agent : M unit :=
  try_except
    (let* _ := do NewMcpTools in
     let* _ := do McpToolsInitialize in
     let* _ := openai_model DbAgent in
     do_ (NewAgent DbAgent))
    (fun e =>
       let* _ := log Error ("Error creating database agent: " ++ exn_str e) in
       raise e).

Definition required_variables : list string :=
  ["DB_HOST"; "DB_USER"; "DB_PASSWORD"; "DB_NAME"].

(** [not os.getenv(var)] *)
Definition unset (var : string) : bool :=
  match getenv var with
  | Some v => negb (truthy v)
  | None => true
  end.

Definition missing_variables : list string :=
  List.filter unset required_variables.

(** [f"User: {msg['user']}\nAssistant: {msg['assistant']}"] *)
Definition render_turn (msg : turn) : M string :=
  let* u := getitem msg "user" in
  let* a := getitem msg "assistant" in
  ret ("User: " ++ py_str u ++ nl ++ "Assistant: " ++ py_str a).

Definition spaces (n : nat) : string := string_of_list_ascii (repeat " "%char n).

Definition symptom_prompt (history_prompt user_message : string) : string :=
  nl ++ spaces 4 ++ "Conversation history:" ++ nl
  ++ spaces 4 ++ history_prompt ++ nl
  ++ nl
  ++ spaces 4 ++ "Current message: " ++ dq ++ user_message ++ dq ++ nl
  ++ nl
  ++ spaces 4 ++ "Analyze the symptoms and return a comma-separated list of specialties or a question if clarification is needed." ++ nl
  ++ spaces 4.

Definition db_prompt (history_prompt user_message specialties : string) : string :=
  nl ++ spaces 16 ++ "Conversation history:" ++ nl
  ++ spaces 16 ++ history_prompt ++ nl
  ++ nl
  ++ spaces 16 ++ "Current message: " ++ dq ++ user_message ++ dq ++ nl
  ++ nl
  ++ spaces 16 ++ "Search for consultants with these specialties: " ++ specialties ++ nl
  ++ spaces 16 ++ "Use flexible matching for any of: " ++ specialties ++ nl
  ++ spaces 16.

(** The first statement of [process_chat_message]. *)
Definition enter : M unit :=
  log Info ("Platform: " ++ platform w ++ ", Event loop policy: " ++ loop_policy w).

(** Step 1 of [process_chat_message]: from the creation of the symptom
    analyzer to the trimmed text of its answer.  Returns [history_prompt]
    and [response_content]. *)
Definition analyze_symptoms (user_message : string) : M (string * string) :=
  let* _ := log Info "Analyzing message for symptoms..." in
  let* _ := create_symptom_analyzer in
  let* conversation_history := read_history in
  let* lines := mapM render_turn conversation_history in
  let history_prompt := join nl lines in
  let* specialty_response := do (Arun Analyzer (symptom_prompt history_prompt user_message)) in
  let* response_content := content_strip specialty_response in
  ret (history_prompt, response_content).

(** [not response_content or "?" in response_content] *)
Definition needs_clarification (response_content : string) : bool :=
  negb (truthy response_content) || contains "?" response_content.

(** [StdioServerParameters(command='uvx', args=[...])] *)
Definition stdio_server_parameters : server_parameters :=
  {| sp_command := "uvx";
     sp_args := [Some "mcp-sql-server";
                 Some "--db-host"; getenv "DB_HOST";
                 Some "--db-user"; getenv "DB_USER";
                 Some "--db-password"; getenv "DB_PASSWORD";
                 Some "--db-database"; getenv "DB_NAME"] |}.

(** Step 2 up to the [try]: the log lines, the server parameters and the
    fresh [DatabaseAgent]. *)
Definition prepare (specialties : string) : M server_parameters :=
  let* _ := log Info ("Identified specialties: " ++ specialties) in
  let* _ := log Info "Querying database for consultants..." in
  let* _ := log Info ("Using DB credentials: host=" ++ getenv_str "DB_HOST"
                      ++ ", user=" ++ getenv_str "DB_USER") in
  let server_parameters := stdio_server_parameters in
  let* _ := log Info ("Server parameters: " ++ show_params w server_parameters) in
  let* _ := write_session None in
  ret server_parameters.

(** The body of the [try]: the two nested [async with] blocks. *)
Definition round_trip (params : server_parameters)
    (history_prompt user_message specialties : string) : M query_result :=
  async_with (do (StdioClientEnter params)) (do_ StdioClientExit) (fun _ =>
    async_with (let* _ := do NewClientSession in do ClientSessionEnter)
               (do_ ClientSessionExit) (fun _ =>
      let* _ := write_session (Some tt) in
      let* _ := do SessionInitialize in
      let* _ := create_database_agent in
      let* db_response := do (Arun DbAgent (db_prompt history_prompt user_message specialties)) in
      let* text := content_strip db_response in
      ret (mk_result text "success"))).

Definition query_error (e : exn) : M query_result :=
  let* _ := log Error ("Database query error: " ++ exn_str e ++ nl ++ format_exc w e) in
  ret (mk_result ("Error: Unable to fetch consultants: " ++ exn_str e) "error").

Definition teardown : M unit :=
  let* _ := cleanup in
  do_ (Sleep 200).

Definition query_database (history_prompt user_message specialties : string) : M query_result :=
  let* params := prepare specialties in
  try_finally
    (try_except (round_trip params history_prompt user_message specialties) query_error)
    teardown.

(** *** [process_chat_message] *)
Definition process_chat_message (user_message : string) : M query_result :=
  let* _ := enter in
  match missing_variables with
  | _ :: _ =>
      ret (mk_result ("Error: Missing environment variables: "
                      ++ join ", " missing_variables) "error")
  | [] =>
      let* '(history_prompt, response_content) := analyze_symptoms user_message in
      if needs_clarification response_content
      then ret (mk_result (if truthy response_content then response_content
                           else "Could you describe your symptoms?") "clarification")
      else query_database history_prompt user_message response_content
  end.

(** *** [process_user_message_async] (app.py) *)
Definition process_user_message_async (user_message : string) : M query_result :=
  if negb (truthy (strip user_message))
  then ret (mk_result "Please enter a valid message." "error")
  else
    try_except
      (wait_for (process_chat_message user_message))
      (fun e =>
         match e with
         | Exc TimeoutError _ =>
             ret (mk_result "Error: Database query timed out after 30 seconds. Please check if the database server is running." "error")
         | _ =>
             ret (mk_result ("Error processing message: " ++ exn_str e ++ nl
                             ++ "Please check if 'uvx mcp-sql-server' is accessible and the database is running.") "error")
         end).

(** The state once the first statement has run, and the state at the
    [try] of step 2. *)
Definition entered (st : State) : State := fst (enter st).

Definition prepared (specialties : string) (st : State) : State :=
  fst (prepare specialties st).

End Program.

(** ** Sample worlds *)

Module Samples.

Definition env_full : gmap string string :=
  <["DB_HOST" := "db.local"]> (<["DB_USER" := "reader"]>
    (<["DB_PASSWORD" := "secret"]> (<["DB_NAME" := "clinic"]> ∅))).

(** [DB_HOST] is not set. *)
Definition env_no_host : gmap string string :=
  <["DB_USER" := "reader"]>
    (<["DB_PASSWORD" := "secret"]> (<["DB_NAME" := "clinic"]> ∅)).

Definition mk_world (env : gmap string string) (o : call -> result pyval)
    (has_close : bool) : World :=
  {| environ := env; oracle := o; session_has_close := has_close;
     platform := "linux"; loop_policy := "DefaultEventLoopPolicy";
     show_params := fun p => sp_command p;
     format_exc := fun e => "Traceback (most recent call last): " ++ exn_str e |}.

(** Every library call succeeds; the classifier names specialties and the
    query agent lists one consultant. *)
Definition answers_found (c : call) : result pyval :=
  match c with
  | Arun Analyzer _ => Val (VStr " Cardiologist, Cardiology ")
  | Arun DbAgent _ => Val (VStr "Found consultants: [Dr. Perera - Cardiology]")
  | _ => Val VNone
  end.

(** The query agent answers with a question. *)
Definition answers_question (c : call) : result pyval :=
  match c with
  | Arun Analyzer _ => Val (VStr "Cardiologist, Cardiology")
  | Arun DbAgent _ => Val (VStr "Which specialty do you mean?")
  | _ => Val VNone
  end.

(** The classifier asks the user for more detail. *)
Definition answers_unsure (c : call) : result pyval :=
  match c with
  | Arun Analyzer _ => Val (VStr "Could you describe any symptoms you're experiencing?")
  | _ => Val VNone
  end.

(** The classifier answers with blanks only. *)
Definition answers_blank (c : call) : result pyval :=
  match c with
  | Arun Analyzer _ => Val (VStr "   ")
  | _ => Val VNone
  end.

(** The classifier's model call fails. *)
Definition classifier_down (c : call) : result pyval :=
  match c with
  | Arun Analyzer _ => Raise (Exc OtherError "Connection error.")
  | _ => Val VNone
  end.

(** The subprocess cannot be spawned. *)
Definition spawn_fails (c : call) : result pyval :=
  match c with
  | Arun Analyzer _ => Val (VStr "Cardiologist, Cardiology")
  | StdioClientEnter _ => Raise (Exc OtherError "uvx: command not found")
  | _ => Val VNone
  end.

(** The session offers [close], and closing it fails. *)
Definition close_fails (c : call) : result pyval :=
  match c with
  | Arun Analyzer _ => Val (VStr "Cardiologist, Cardiology")
  | Arun DbAgent _ => Val (VStr "No consultants found. Please provide more details or check spelling.")
  | SessionClose => Raise (Exc OtherError "stream closed")
  | _ => Val VNone
  end.

(** The deadline of the hosting [wait_for] fires while the query agent
    runs. *)
Definition query_cancelled (c : call) : result pyval :=
  match c with
  | Arun Analyzer _ => Val (VStr "Cardiologist, Cardiology")
  | Arun DbAgent _ => Raise (Cancelled true)
  | _ => Val VNone
  end.

Definition msg_chest : string := "I have chest pain and shortness of breath".

Definition w_found : World := mk_world env_full answers_found false.
Definition w_query_cancelled : World := mk_world env_full query_cancelled true.
Definition w_question : World := mk_world env_full answers_question false.
Definition w_unsure : World := mk_world env_full answers_unsure false.
Definition w_blank : World := mk_world env_full answers_blank false.
Definition w_classifier_down : World := mk_world env_full classifier_down false.
Definition w_spawn_fails : World := mk_world env_full spawn_fails false.
Definition w_close_fails : World := mk_world env_full close_fails true.
Definition w_no_host : World := mk_world env_no_host answers_found false.

Definition one_turn : list turn :=
  [ <["user" := VStr "I have chest pain"]>
      (<["assistant" := VStr "Found consultants: [Dr. Perera - Cardiology]"]> ∅) ].

End Samples.

(** ** Observations on a run *)

Definition count_ev (P : event -> bool) (t : list event) : nat :=
  length (List.filter P t).

Definition tally (P : event -> bool) (st : State) : nat := count_ev P (trace st).

(** 1 when [db_agent.session] is set, 0 when it is [None]. *)
Definition session_count (st : State) : nat :=
  match agent_session st with Some _ => 1 | None => 0 end.

Definition is_cleanup (ev : event) : bool :=
  match ev with EvCleanup => true | _ => false end.

Definition is_session_exit (ev : event) : bool :=
  match ev with EvCall ClientSessionExit => true | _ => false end.

Definition is_session_close (ev : event) : bool :=
  match ev with EvCall SessionClose => true | _ => false end.

(** The calls that spawn the subprocess or open the protocol session. *)
Definition opens_session (ev : event) : bool :=
  match ev with
  | EvCall (StdioClientEnter _) | EvCall NewClientSession
  | EvCall ClientSessionEnter | EvCall SessionInitialize => true
  | _ => false
  end.

(** The calls that construct or run a language model. *)
Definition is_model_call (ev : event) : bool :=
  match ev with
  | EvCall (OpenAIChat _ _) | EvCall (NewAgent _) | EvCall (Arun _ _) => true
  | _ => false
  end.

Definition is_call (ev : event) : bool :=
  match ev with EvCall _ => true | _ => false end.

(** [m] leaves the observation [f] of the state as it found it, however it
    ends. *)
Definition keeps {A X} (f : State -> X) (m : M A) : Prop :=
  forall st, f (fst (m st)) = f st.

(** Every value [m] returns satisfies [P]. *)
Definition returns {A} (P : A -> Prop) (m : M A) : Prop :=
  forall st st' a, m st = (st', Val a) -> P a.

Definition valid_status (r : query_result) : Prop :=
  exists s, r !! "status" = Some s /\ In s ["success"; "clarification"; "error"].

(** No cancellation reaches the teardown, and the final sleep completes. *)
Definition quiet_teardown (w : World) : Prop :=
  (forall b, oracle w SessionClose <> Raise (Cancelled b))
  /\ (forall b, oracle w (Sleep 100) <> Raise (Cancelled b))
  /\ (exists v, oracle w (Sleep 200) = Val v).

(** ** More Python string operations *)

Module PyText.

(** [s.startswith(p)] *)
Definition startswith (p s : string) : bool := String.prefix p s.

(** [s[n:]] *)
Fixpoint drop (n : nat) (s : string) : string :=
  match n, s with
  | S k, String _ s' => drop k s'
  | _, _ => s
  end.

(** The text before and after the first occurrence of a non-empty [sep]:
    [s.split(sep, 1)] when [sep in s]. *)
Fixpoint partition (sep s : string) : option (string * string) :=
  if String.prefix sep s then Some (EmptyString, drop (String.length sep) s)
  else match s with
       | EmptyString => None
       | String c s' =>
           match partition sep s' with
           | Some (a, b) => Some (String c a, b)
           | None => None
           end
       end.

Fixpoint split_fuel (fuel : nat) (sep s : string) : list string :=
  match fuel with
  | 0 => [s]
  | S f =>
      match partition sep s with
      | Some (a, b) => a :: split_fuel f sep b
      | None => [s]
      end
  end.

(** [s.split(sep)] for a non-empty [sep]: the pieces between successive
    occurrences, found from the left.  Every cut removes at least one
    character, so [length s] cuts are enough. *)
Definition split (sep s : string) : list string :=
  split_fuel (String.length s) sep s.

(** [c in s] for a single character. *)
Fixpoint has_char (c : ascii) (s : string) : bool :=
  match s with
  | EmptyString => false
  | String a s' => Ascii.eqb a c || has_char c s'
  end.

(** The group of [(.*?)\]] matched at the start of [s]: the text up to the
    first closing bracket, which [.] reaches only across characters other
    than a newline. *)
Fixpoint until_bracket (s : string) : option string :=
  match s with
  | EmptyString => None
  | String c s' =>
      if Ascii.eqb c "]"%char then Some EmptyString
      else if Ascii.eqb c "010"%char then None
      else match until_bracket s' with
           | Some g => Some (String c g)
           | None => None
           end
  end.

(** [\s*\[(.*?)\]] matched at the start of [s]. *)
Definition bracketed (s : string) : option string :=
  match PyStr.lstrip s with
  | String c rest => if Ascii.eqb c "["%char then until_bracket rest else None
  | EmptyString => None
  end.

(** [re.search(r'Found consultants:\s*\[(.*?)\]', s).group(1)], [None] when
    there is no match: the leftmost start at which the pattern matches. *)
Fixpoint search_listing (s : string) : option string :=
  match (if String.prefix "Found consultants:" s
         then bracketed (drop 18 s) else None) with
  | Some g => Some g
  | None =>
      match s with
      | EmptyString => None
      | String _ s' => search_listing s'
      end
  end.

End PyText.

(** ** The presentation of a response (app.py) *)

Module App.

Import PyStr PyText.

(** [{'name': ..., 'specialty': ...}] *)
Record consultant := { name : string; specialty : string }.

(** The body of the loop over [enumerate(consultant_entries)]: [None] when
    the entry holds no [' - '] and is skipped. *)
Definition parse_entry (i : nat) (entry : string) : option consultant :=
  let entry :=
    if (i =? 0)%nat && startswith "Dr. " entry then drop 4 entry else entry in
  match partition " - " entry with
  | Some (n, s) =>
      Some {| name := if startswith "Dr." n then n else "Dr. " ++ n;
              specialty := s |}
  | None => None
  end.

Fixpoint parse_entries (i : nat) (entries : list string) : list consultant :=
  match entries with
  | [] => []
  | e :: rest =>
      match parse_entry i e with
      | Some c => c :: parse_entries (S i) rest
      | None => parse_entries (S i) rest
      end
  end.

(** [consultants], from [consultant_data]. *)
Definition parse_consultants (consultant_data : string) : list consultant :=
  parse_entries 0 (split ", Dr. " consultant_data).

(** The literal markdown blocks. *)
Inductive block := FoundHeading | NextSteps | Suggestions | ClarifyHint.

(** The calls into streamlit, in the order they are made.  The icons and
    the HTML of a card are fixed text around the data recorded here. *)
Inductive ui :=
| StMarkdown (b : block)
| StColumns (n : nat)
| StCard (column : nat) (c : consultant)
| StInfoTotal (n : nat)
| StInfoQuestion (text : string)
| StWarning (text : string)
| StWarningNotFound (text : string)
| StWrite (text : string).

(** [with cols[i % 2]: st.markdown(card)] for every consultant; [None] is
    the [IndexError] of [cols[i % 2]]. *)
Fixpoint render_cards (ncols i : nat) (cs : list consultant) : option (list ui) :=
  match cs with
  | [] => Some []
  | c :: rest =>
      if (i mod 2 <? ncols)%nat
      then match render_cards ncols (S i) rest with
           | Some out => Some (StCard (i mod 2) c :: out)
           | None => None
           end
      else None
  end.

(** [format_assistant_response] *)
Definition format_assistant_response (response_text : string) : option (list ui) :=
  if contains "Found consultants:" response_text then
    match search_listing response_text with
    | Some consultant_data =>
        let consultants := parse_consultants consultant_data in
        match consultants with
        | _ :: _ =>
            let ncols := Nat.min (length consultants) 2 in
            match render_cards ncols 0 consultants with
            | Some cards =>
                Some ([StMarkdown FoundHeading; StColumns ncols] ++ cards
                      ++ [StInfoTotal (length consultants); StMarkdown NextSteps])%list
            | None => None
            end
        | [] => Some [StWarning "No consultants found in the response."]
        end
    | None => Some [StWrite response_text]
    end
  else if contains "No consultants found" response_text then
    Some [StWarningNotFound response_text; StMarkdown Suggestions]
  else if contains "?" response_text then
    Some [StInfoQuestion response_text; StMarkdown ClarifyHint]
  else Some [StWrite response_text].

(** A listing as the parser expects it: ["Dr. <name> - <specialty>"] entries,
    comma-separated, between the brackets that follow "Found consultants:". *)
Definition body (c : string * string) : string := fst c ++ " - " ++ snd c.

Definition listed (c : string * string) : string :=
  "Dr. " ++ fst c ++ " - " ++ snd c.

(** The card a listed consultant should get. *)
Definition card_of (c : string * string) : consultant :=
  {| name := "Dr. " ++ fst c; specialty := snd c |}.

Definition listing (cs : list (string * string)) : string :=
  "Found consultants: [" ++ join ", " (map listed cs) ++ "]".

(** A name or specialty that the listing format can carry. *)
Definition plain (s : string) : bool :=
  negb (has_char ","%char s) && negb (has_char "]"%char s)
  && negb (has_char "010"%char s).

Definition plain_name (n : string) : bool :=
  plain n && negb (has_char "-"%char n) && negb (startswith "Dr." n).

Definition plain_entry (c : string * string) : bool :=
  plain_name (fst c) && plain (snd c).

(** The cards of consultants number [i], [i+1], ... *)
Fixpoint cards_from (i : nat) (cs : list consultant) : list ui :=
  match cs with
  | [] => []
  | c :: rest => StCard (i mod 2) c :: cards_from (S i) rest
  end.

Definition is_card (u : ui) : bool :=
  match u with StCard _ _ => true | _ => false end.

(** *** The script run ([main]) *)

(** [st.session_state] *)
Record session_state := {
  conversation_history : list turn;
  processing : bool;
  input_key : nat
}.

(** How a run of the script ends: [st.rerun()] stops it and schedules the
    next run (its exception is not an [Exception], so the [except] clause of
    [main] lets it through), the script reaches its last line, or an
    exception leaves [main]. *)
Inductive run_end := Rerun | Finished | Failed (e : exn).

(** What the chat container and the status line show. *)
Inductive bubble :=
| UserBubble (text : pyval)
| AssistantBubble (out : list ui)
| PendingBubble
| ProcessingNotice.

(** [{"user": u, "assistant": a}] *)
Definition mk_turn (u a : pyval) : turn :=
  <["user" := u]> (<["assistant" := a]> ∅).

(** The loop over [st.session_state.conversation_history] in the chat
    container. *)
Fixpoint show_history (h : list turn) : result (list bubble) :=
  match h with
  | [] => Val []
  | msg :: rest =>
      match msg !! "user" with
      | None => Raise (Exc KeyError "'user'")
      | Some u =>
          match msg !! "assistant" with
          | None => Raise (Exc KeyError "'assistant'")
          | Some a =>
              match (match a with
                     | VNone => Val PendingBubble
                     | VStr text =>
                         match format_assistant_response text with
                         | Some out => Val (AssistantBubble out)
                         | None => Raise (Exc OtherError "list index out of range")
                         end
                     end) with
              | Raise e => Raise e
              | Val b =>
                  match show_history rest with
                  | Val bs => Val (UserBubble u :: b :: bs)
                  | Raise e => Raise e
                  end
              end
          end
      end
  end.

(** [history[-1]["assistant"] = a], for a non-empty history. *)
Fixpoint set_last_assistant (a : pyval) (h : list turn) : list turn :=
  match h with
  | [] => []
  | [t] => [<["assistant" := a]> t]
  | t :: rest => t :: set_last_assistant a rest
  end.

(** The [try] body of the processing branch: [run_async_task] runs the
    coroutine to its end and hands back what it returned or raised. *)
Definition answer (w : World) (h : list turn) (last_message : turn) : result string :=
  match last_message !! "user" with
  | None => Raise (Exc KeyError "'user'")
  | Some VNone => Raise (Exc AttributeError "'NoneType' object has no attribute 'strip'")
  | Some (VStr user_message) =>
      match snd (process_user_message_async w user_message (init_state (removelast h))) with
      | Val result =>
          match result !! "response" with
          | Some text => Val text
          | None => Raise (Exc KeyError "'response'")
          end
      | Raise e => Raise e
      end
  end.

Record run := {
  state : session_state;
  shown : list bubble;
  ending : run_end
}.

(** One run of the script.  [user_input] is what [st.chat_input] returned
    and [clear_clicked] what the "Clear Conversation" button returned; the
    page furniture around the chat is not recorded. *)
Definition main (w : World) (user_input : option string) (clear_clicked : bool)
    (ss : session_state) : run :=
  let h := conversation_history ss in
  match show_history h with
  | Raise e => {| state := ss; shown := []; ending := Failed e |}
  | Val bubbles =>
      let accepted :=
        match user_input with
        | Some text => truthy text && negb (processing ss)
        | None => false
        end in
      if accepted then
        {| state := {| conversation_history :=
                         (h ++ [mk_turn (VStr (default EmptyString user_input)) VNone])%list;
                       processing := true;
                       input_key := S (input_key ss) |};
           shown := bubbles; ending := Rerun |}
      else
        let after_processing (note : list bubble) :=
          if match h with [] => false | _ => clear_clicked end then
            {| state := {| conversation_history := [];
                           processing := processing ss;
                           input_key := S (input_key ss) |};
               shown := (bubbles ++ note)%list; ending := Rerun |}
          else {| state := ss; shown := (bubbles ++ note)%list; ending := Finished |} in
        if processing ss then
          match last h with
          | None => after_processing [ProcessingNotice]
          | Some last_message =>
              match last_message !! "assistant" with
              | None => {| state := ss; shown := bubbles;
                           ending := Failed (Exc KeyError "'assistant'") |}
              | Some (VStr _) => after_processing [ProcessingNotice]
              | Some VNone =>
                  match answer w h last_message with
                  | Val text =>
                      {| state := {| conversation_history :=
                                       set_last_assistant (VStr text) h;
                                     processing := false;
                                     input_key := input_key ss |};
                         shown := bubbles; ending := Rerun |}
                  | Raise e =>
                      if is_Exception e then
                        {| state := {| conversation_history :=
                                         set_last_assistant
                                           (VStr ("Error processing message: " ++ exn_str e)) h;
                                       processing := false;
                                       input_key := input_key ss |};
                           shown := bubbles; ending := Rerun |}
                      else {| state := ss; shown := bubbles; ending := Failed e |}
                  end
              end
          end
        else after_processing []
  end.

(** The session state the script starts from. *)
Definition initial_state : session_state :=
  {| conversation_history := []; processing := false; input_key := 0 |}.

(** A user session: the script runs once per event, each run seeing its own
    input, button and library answers. *)
Fixpoint session (events : list (World * option string * bool)) (ss : session_state)
    : session_state :=
  match events with
  | [] => ss
  | (w, user_input, clear_clicked) :: rest =>
      session rest (state (main w user_input clear_clicked ss))
  end.

End App.

(** ** The command-line chat loop (database_agent.py, [main]) *)

Module DatabaseAgentPy.

Definition test_messages : list string :=
  ["I have chest pain and shortness of breath";
   "What about headaches?";
   "I'm not sure what's wrong"].

(** [conversation_history = []] *)
Definition new_history : M unit :=
  fun st => ({| trace := trace st; history := []; agent_session := agent_session st |},
             Val tt).

(** [conversation_history.append(t)] *)
Definition append_history (t : turn) : M unit :=
  fun st => ({| trace := trace st; history := (history st ++ [t])%list;
                agent_session := agent_session st |}, Val tt).

(** [result['response']] *)
Definition response_of (result : query_result) : M string :=
  match result !! "response" with
  | Some text => ret text
  | None => raise (Exc KeyError "'response'")
  end.

(** The body of the loop over [test_messages]. *)
Definition chat_turn (w : World) (msg : string) : M unit :=
  let* _ := log Info ("Processing message: " ++ msg) in
  let* result := process_chat_message w msg in
  let* text := response_of result in
  let* _ := log Info ("Response: " ++ text) in
  append_history (App.mk_turn (VStr msg) (VStr text)).

(** The loop; [world_of i] holds what the libraries answer during the
    [i]-th invocation. *)
Fixpoint chat_loop (world_of : nat -> World) (i : nat) (msgs : list string) : M unit :=
  match msgs with
  | [] => ret tt
  | msg :: rest =>
      let* _ := chat_turn (world_of i) msg in
      chat_loop world_of (S i) rest
  end.

(** [main] *)
Definition main (w : World) (world_of : nat -> World) : M unit :=
  let* _ := log Info ("Starting main function. Platform: " ++ platform w) in
  let* _ := log Info ("Event loop policy: " ++ loop_policy w) in
  let* _ := new_history in
  chat_loop world_of 0 test_messages.

End DatabaseAgentPy.

(** ** More observations *)

(** Calls of the model constructor [OpenAIChat]. *)
Definition is_constructor (ev : event) : bool :=
  match ev with EvCall (OpenAIChat _ _) => true | _ => false end.

(** Runs of the symptom analyzer. *)
Definition is_classifier_run (ev : event) : bool :=
  match ev with EvCall (Arun Analyzer _) => true | _ => false end.


Definition is_spawn (ev : event) : bool :=
  match ev with EvCall (StdioClientEnter _) => true | _ => false end.

(** The line of the prompt that renders one turn. *)
Definition turn_line (u a : pyval) : string :=
  "User: " ++ py_str u ++ PyStr.nl ++ "Assistant: " ++ py_str a.

(** [m] only appends to the trace. *)
Definition grows {A} (m : M A) : Prop :=
  forall st, exists evs, trace (fst (m st)) = (trace st ++ evs)%list.

(** [m] keeps the state invariant [I], however it ends. *)
Definition preserves {A} (I : State -> Prop) (m : M A) : Prop :=
  forall st, I st -> I (fst (m st)).

Definition is_type_error (r : result pyval) : bool :=
  match r with Raise (Exc TypeError _) => true | _ => false end.

(** The result is a dict with the two keys "response" and "status". *)
Definition two_keys (r : query_result) : Prop :=
  exists text s, r = mk_result text s.

(** A turn that holds both keys the prompt reads. *)
Definition has_keys (t : turn) : Prop :=
  is_Some (t !! "user") /\ is_Some (t !! "assistant").

(** [line] renders the turn [t]. *)
Definition rendered (t : turn) (line : string) : Prop :=
  exists u a, t !! "user" = Some u /\ t !! "assistant" = Some a
              /\ line = turn_line u a.

(** What the status of a result says about its text. *)
Definition status_fits (r : query_result) : Prop :=
  exists text s,
    r = mk_result text s
    /\ (s = "clarification" -> PyStr.contains "?" text = true)
    /\ (s = "error" -> String.prefix "Error: " text = true).

(** Every spawn recorded in the state is one of those in [t0] or carries
    the server parameters built from a complete environment. *)
Definition spawns_complete (w : World) (t0 : list event) (st : State) : Prop :=
  forall p, In (EvCall (StdioClientEnter p)) (trace st) ->
    In (EvCall (StdioClientEnter p)) t0
    \/ (p = stdio_server_parameters w /\ missing_variables w = []).

(** A turn with a user text and an answer, and a turn that still waits
    for its answer. *)
Definition resolved_turn (t : turn) : Prop :=
  exists u a, t = App.mk_turn (VStr u) (VStr a).

Definition pending_turn (u : string) : turn := App.mk_turn (VStr u) VNone.

(** The discipline of the session state: while the script is idle every
    turn is resolved; while it is processing, the last turn, and only the
    last, waits for its answer. *)
Definition session_ok (ss : App.session_state) : Prop :=
  if App.processing ss
  then exists h u,
         u <> EmptyString
         /\ App.conversation_history ss = (h ++ [pending_turn u])%list
         /\ Forall resolved_turn h
  else Forall resolved_turn (App.conversation_history ss).

(** The turns the chat loop records for [msgs] when the invocations
    answered [answers]. *)
Definition recorded (msgs answers : list string) : list turn :=
  map (fun p => App.mk_turn (VStr (fst p)) (VStr (snd p))) (combine msgs answers).

(** ** More sample worlds *)

Module MoreSamples.



End MoreSamples.

(** ** Facts about the string helpers *)

Section StringFacts.

Import PyStr.

Lemma lstrip_all_space s : all_space s = true -> lstrip s = EmptyString.
Proof.
  induction s as [|c s IH]; simpl; [reflexivity|].
  destruct (is_space c); simpl; [exact IH | discriminate].
Qed.

Lemma lstrip_head s c r : lstrip s = String c r -> is_space c = false.
Proof.
  induction s as [|a s IH]; simpl; [discriminate|].
  destruct (is_space a) eqn:Ha; [exact IH|].
  intros [= -> ->]. exact Ha.
Qed.

Lemma rstrip_empty s : rstrip s = EmptyString -> all_space s = true.
Proof.
  induction s as [|c s IH]; simpl; [reflexivity|].
  destruct (rstrip s) eqn:Hr; [|discriminate].
  destruct (is_space c); [intros _; simpl; auto | discriminate].
Qed.

Lemma lstrip_empty s : lstrip s = EmptyString -> all_space s = true.
Proof.
  induction s as [|c s IH]; simpl; [reflexivity|].
  destruct (is_space c); simpl; [exact IH | discriminate].
Qed.

(** [s.strip()] is empty exactly when [s] is empty or all whitespace. *)
Lemma strip_empty_iff s : strip s = EmptyString <-> all_space s = true.
Proof.
  unfold strip. split.
  - intros H. destruct (lstrip s) as [|c r] eqn:Hl.
    + now apply lstrip_empty.
    + apply rstrip_empty in H. simpl in H.
      apply lstrip_head in Hl. rewrite Hl in H. discriminate.
  - intros H. now rewrite lstrip_all_space.
Qed.

Lemma prefix_app n post : String.prefix n (n ++ post) = true.
Proof.
  induction n as [|c n IH]; simpl.
  - now destruct post.
  - destruct (ascii_dec c c); [exact IH | congruence].
Qed.

Lemma prefix_refl n : String.prefix n n = true.
Proof.
  induction n as [|c n IH]; simpl; [reflexivity|].
  destruct (ascii_dec c c); [exact IH | congruence].
Qed.

Lemma contains_prefix n s : String.prefix n s = true -> contains n s = true.
Proof. intros H. destruct s; unfold contains; fold contains; now rewrite H. Qed.

Lemma contains_app n pre post : contains n (pre ++ n ++ post) = true.
Proof.
  induction pre as [|c pre IH].
  - apply contains_prefix. exact (prefix_app n post).
  - change (contains n (String c (pre ++ n ++ post)) = true).
    simpl. rewrite IH. apply orb_true_r.
Qed.

Lemma contains_app_r n pre s : contains n s = true -> contains n (pre ++ s) = true.
Proof.
  intros H. induction pre as [|c pre IH]; [exact H|].
  change (contains n (String c (pre ++ s)) = true).
  simpl. rewrite IH. apply orb_true_r.
Qed.

Lemma contains_self_app n post : contains n (n ++ post) = true.
Proof. exact (contains_app n EmptyString post). Qed.

(** Every element of a joined list occurs in the joined text. *)
Lemma join_contains sep v l : In v l -> contains v (join sep l) = true.
Proof.
  induction l as [|x l IH]; [intros []|].
  intros [-> | Hin].
  - destruct l as [|y l]; simpl join.
    + apply contains_prefix, prefix_refl.
    + apply contains_self_app.
  - destruct l as [|y l]; [destruct Hin|].
    change (join sep (x :: y :: l)) with (x ++ sep ++ join sep (y :: l)).
    apply contains_app_r, contains_app_r, IH, Hin.
Qed.

End StringFacts.

(** ** Frame rules for the control operators *)

Section Frame.

Context {X : Type} (f : State -> X).

Lemma keeps_ret {A} (a : A) : keeps f (ret a).
Proof. intros st. reflexivity. Qed.

Lemma keeps_raise {A} e : keeps f (@raise A e).
Proof. intros st. reflexivity. Qed.

Lemma keeps_lift {A} (r : result A) : keeps f (lift r).
Proof. intros st. reflexivity. Qed.

Lemma keeps_read_history : keeps f read_history.
Proof. intros st. reflexivity. Qed.

Lemma keeps_read_session : keeps f read_session.
Proof. intros st. reflexivity. Qed.

Lemma keeps_bind {A B} (m : M A) (k : A -> M B) :
  keeps f m -> (forall a, keeps f (k a)) -> keeps f (bind m k).
Proof.
  intros Hm Hk st. unfold bind. specialize (Hm st).
  destruct (m st) as [st' [a|e]]; simpl in *; [|exact Hm].
  now rewrite Hk.
Qed.

Lemma keeps_try_except {A} (body : M A) handler :
  keeps f body -> (forall e, keeps f (handler e)) -> keeps f (try_except body handler).
Proof.
  intros Hb Hh st. unfold try_except. specialize (Hb st).
  destruct (body st) as [st' [a|e]]; simpl in *; [exact Hb|].
  destruct (is_Exception e); simpl; [|exact Hb].
  now rewrite Hh.
Qed.

Lemma keeps_try_except_class {A} cls (body handler : M A) :
  keeps f body -> keeps f handler -> keeps f (try_except_class cls body handler).
Proof.
  intros Hb Hh st. unfold try_except_class. specialize (Hb st).
  destruct (body st) as [st' [a|[c m|b]]]; simpl in *; try exact Hb.
  destruct (decide (c = cls)); simpl; [|exact Hb].
  now rewrite Hh.
Qed.

Lemma keeps_try_finally {A} (body : M A) fin :
  keeps f body -> keeps f fin -> keeps f (try_finally body fin).
Proof.
  intros Hb Hf st. unfold try_finally. specialize (Hb st).
  destruct (body st) as [st' r]. specialize (Hf st').
  destruct (fin st') as [st'' [u|e]]; simpl in *; congruence.
Qed.

Lemma keeps_async_with {A B} (enter : M A) exit (body : A -> M B) :
  keeps f enter -> keeps f exit -> (forall x, keeps f (body x)) ->
  keeps f (async_with enter exit body).
Proof.
  intros He Hx Hb. apply keeps_bind; [exact He|].
  intros x. apply keeps_try_finally; auto.
Qed.

Lemma keeps_wait_for {A} (m : M A) : keeps f m -> keeps f (wait_for m).
Proof.
  intros Hm st. unfold wait_for. specialize (Hm st).
  destruct (m st) as [st' [a|[c msg|[|]]]]; exact Hm.
Qed.

Lemma keeps_mapM {A B} (g : A -> M B) l :
  (forall x, keeps f (g x)) -> keeps f (mapM g l).
Proof.
  intros Hg. induction l as [|x l IH]; simpl.
  - apply keeps_ret.
  - apply keeps_bind; [apply Hg|]. intros y.
    apply keeps_bind; [exact IH|]. intros ys. apply keeps_ret.
Qed.

End Frame.

Lemma keeps_emit_history ev : keeps history (emit ev).
Proof. intros st. reflexivity. Qed.

Lemma keeps_emit_session ev : keeps agent_session (emit ev).
Proof. intros st. reflexivity. Qed.

Lemma keeps_write_session_history s : keeps history (write_session s).
Proof. intros st. reflexivity. Qed.

Lemma keeps_write_session_tally P s : keeps (tally P) (write_session s).
Proof. intros st. reflexivity. Qed.

Lemma count_ev_app P t1 t2 : count_ev P (t1 ++ t2) = count_ev P t1 + count_ev P t2.
Proof. unfold count_ev. now rewrite List.filter_app, length_app. Qed.

Lemma tally_emit P ev st :
  tally P (fst (emit ev st)) = tally P st + (if P ev then 1 else 0).
Proof.
  unfold tally, emit. simpl. rewrite count_ev_app. unfold count_ev at 2. simpl.
  now destruct (P ev).
Qed.

Lemma keeps_emit_tally P ev : P ev = false -> keeps (tally P) (emit ev).
Proof. intros H st. rewrite tally_emit, H. lia. Qed.

(** Rules for the values a computation returns. *)
Section Returns.

Context {B : Type} (P : B -> Prop).

Lemma returns_ret b : P b -> returns P (ret b).
Proof. intros H st st' a [= <- <-]. exact H. Qed.

Lemma returns_raise e : returns P (raise e).
Proof. intros st st' a [=]. Qed.

Lemma returns_bind {A} (m : M A) (k : A -> M B) :
  (forall a, returns P (k a)) -> returns P (bind m k).
Proof.
  intros Hk st st' b. unfold bind.
  destruct (m st) as [st1 [a|e]]; [apply Hk | discriminate].
Qed.

Lemma returns_try_except (body : M B) handler :
  returns P body -> (forall e, returns P (handler e)) ->
  returns P (try_except body handler).
Proof.
  intros Hb Hh st st' b. unfold try_except. specialize (Hb st).
  destruct (body st) as [st1 [a|e]]; [apply Hb|].
  destruct (is_Exception e); [apply Hh | discriminate].
Qed.

Lemma returns_try_finally (body : M B) fin :
  returns P body -> returns P (try_finally body fin).
Proof.
  intros Hb st st' b. unfold try_finally. specialize (Hb st).
  destruct (body st) as [st1 r]. destruct (fin st1) as [st2 [u|e]]; [|discriminate].
  intros [= <- ->]. eapply Hb. reflexivity.
Qed.

Lemma returns_async_with {A} (enter : M A) exit (body : A -> M B) :
  (forall x, returns P (body x)) -> returns P (async_with enter exit body).
Proof.
  intros Hb. apply returns_bind. intros x. apply returns_try_finally, Hb.
Qed.

Lemma returns_wait_for (m : M B) : returns P m -> returns P (wait_for m).
Proof.
  intros Hm st st' b. unfold wait_for. specialize (Hm st).
  destruct (m st) as [st1 [a|[c msg|[|]]]]; try discriminate. apply Hm.
Qed.

End Returns.

(** ** Frame properties of the program *)

Ltac unfold_program :=
  unfold process_user_message_async, process_chat_message, query_database,
    teardown, query_error, round_trip, prepare, analyze_symptoms, enter,
    create_database_agent, create_symptom_analyzer, openai_model, cleanup,
    content_strip, render_turn, getitem, do_, do, log.

Ltac frame_step :=
  match goal with
  | |- keeps _ (ret _) => apply keeps_ret
  | |- keeps _ (raise _) => apply keeps_raise
  | |- keeps _ (lift _) => apply keeps_lift
  | |- keeps _ read_history => apply keeps_read_history
  | |- keeps _ read_session => apply keeps_read_session
  | |- keeps history (emit _) => apply keeps_emit_history
  | |- keeps agent_session (emit _) => apply keeps_emit_session
  | |- keeps (tally _) (emit _) => apply keeps_emit_tally; reflexivity
  | |- keeps history (write_session _) => apply keeps_write_session_history
  | |- keeps (tally _) (write_session _) => apply keeps_write_session_tally
  | |- keeps _ (mapM _ _) => apply keeps_mapM; intros ?
  | |- keeps _ (wait_for _) => apply keeps_wait_for
  | |- keeps _ (try_except_class _ _ _) => apply keeps_try_except_class
  | |- keeps _ (try_finally _ _) => apply keeps_try_finally
  | |- keeps _ (try_except _ _) => apply keeps_try_except; [|intros ?]
  | |- keeps _ (bind _ _) => apply keeps_bind; [|intros ?]
  | |- keeps _ (match ?x with _ => _ end) => destruct x
  end.

Ltac frame := unfold_program; unfold async_with; repeat frame_step.

Section ProgramFrames.

Variable w : World.

Lemma process_chat_message_keeps_history msg :
  keeps history (process_chat_message w msg).
Proof. frame. Qed.

Lemma process_user_message_async_keeps_history msg :
  keeps history (process_user_message_async w msg).
Proof. frame. Qed.

Lemma analyze_symptoms_no_cleanup msg :
  keeps (tally is_cleanup) (analyze_symptoms w msg).
Proof. frame. Qed.

Lemma analyze_symptoms_no_session msg :
  keeps (tally opens_session) (analyze_symptoms w msg).
Proof. frame. Qed.

Lemma analyze_symptoms_no_session_exit msg :
  keeps (tally is_session_exit) (analyze_symptoms w msg).
Proof. frame. Qed.

Lemma round_trip_no_cleanup params hp msg text :
  keeps (tally is_cleanup) (round_trip w params hp msg text).
Proof. frame. Qed.

Lemma query_error_no_cleanup e : keeps (tally is_cleanup) (query_error w e).
Proof. frame. Qed.

Lemma query_error_no_session_exit e :
  keeps (tally is_session_exit) (query_error w e).
Proof. frame. Qed.

Lemma query_error_keeps_session e : keeps agent_session (query_error w e).
Proof. frame. Qed.

Lemma teardown_no_session_exit : keeps (tally is_session_exit) (teardown w).
Proof. frame. Qed.

Lemma teardown_keeps_session : keeps agent_session (teardown w).
Proof. frame. Qed.

(** The steps that cannot fail, as equations. *)
Lemma enter_run st : enter w st = (entered w st, Val tt).
Proof. reflexivity. Qed.

Lemma prepare_run text st :
  prepare w text st = (prepared w text st, Val (stdio_server_parameters w)).
Proof. reflexivity. Qed.

Lemma entered_tally P st :
  (forall l m, P (EvLog l m) = false) -> tally P (entered w st) = tally P st.
Proof.
  intros HP. unfold entered, enter, log. rewrite tally_emit, HP. lia.
Qed.

Lemma prepared_tally P text st :
  (forall l m, P (EvLog l m) = false) -> tally P (prepared w text st) = tally P st.
Proof.
  intros HP. unfold prepared, prepare, log, bind. simpl.
  unfold tally. simpl. rewrite !count_ev_app. unfold count_ev. simpl.
  rewrite !HP. simpl. lia.
Qed.

Lemma prepared_session text st : agent_session (prepared w text st) = None.
Proof. reflexivity. Qed.

Lemma try_finally_state {A} (body : M A) fin st :
  fst (try_finally body fin st) = fst (fin (fst (body st))).
Proof.
  unfold try_finally. destruct (body st) as [st' r]. simpl.
  now destruct (fin st') as [st'' [u|e]].
Qed.

Lemma bind_state {A B} (m : M A) (k : A -> M B) st :
  fst (bind m k st)
  = match m st with
    | (s, Val a) => fst (k a s)
    | (s, Raise _) => s
    end.
Proof. unfold bind. now destruct (m st) as [s [a|e]]. Qed.

Lemma try_except_obs {A X} (g : State -> X) (body : M A) handler st :
  (forall e, keeps g (handler e)) ->
  g (fst (try_except body handler st)) = g (fst (body st)).
Proof.
  intros Hh. unfold try_except.
  destruct (body st) as [s [a|e]]; [reflexivity|].
  destruct (is_Exception e); [apply Hh | reflexivity].
Qed.

(** *** The teardown *)

(** [cleanup] is entered exactly once by the [finally] clause, whatever
    the session and the sleeps answer. *)
Lemma cleanup_counts_once st :
  tally is_cleanup (fst (cleanup w st)) = tally is_cleanup st + 1.
Proof.
  unfold cleanup. unfold bind at 1.
  destruct (emit EvCleanup st) as [s1 r] eqn:E.
  assert (Hs1 : tally is_cleanup s1 = tally is_cleanup st + 1)
    by (change s1 with (fst (s1, r)); rewrite <- E, tally_emit; reflexivity).
  assert (Hr : r = Val tt) by (unfold emit in E; congruence).
  subst r. rewrite <- Hs1.
  match goal with |- tally _ (fst (?m s1)) = _ => assert (Hk : keeps (tally is_cleanup) m) end.
  { frame. }
  apply Hk.
Qed.

Lemma teardown_counts_once st :
  tally is_cleanup (fst (teardown w st)) = tally is_cleanup st + 1.
Proof.
  unfold teardown, bind.
  pose proof (cleanup_counts_once st) as Hc.
  destruct (cleanup w st) as [s1 [u|e]]; simpl in *; [|exact Hc].
  rewrite <- Hc.
  assert (Hk : keeps (tally is_cleanup) (do_ w (Sleep 200))) by frame.
  apply Hk.
Qed.

End ProgramFrames.

(** ** The protocol session is left exactly when it was entered *)

Section SessionBalance.

Variable w : World.

Lemma do_no_session_exit c :
  c <> ClientSessionExit -> keeps (tally is_session_exit) (do w c).
Proof.
  intros Hc. unfold do. apply keeps_bind; [|intros ?; apply keeps_lift].
  apply keeps_emit_tally. destruct c; try reflexivity. congruence.
Qed.

Lemma do_keeps_session c : keeps agent_session (do w c).
Proof. frame. Qed.

Lemma session_exit_counts st :
  tally is_session_exit (fst (do_ w ClientSessionExit st))
  = tally is_session_exit st + 1.
Proof.
  unfold do_, do, bind, lift. simpl.
  destruct (oracle w ClientSessionExit); simpl;
    unfold tally; simpl; rewrite count_ev_app; reflexivity.
Qed.

Lemma session_exit_keeps_session : keeps agent_session (do_ w ClientSessionExit).
Proof. frame. Qed.

Lemma transport_exit_keeps :
  keeps (tally is_session_exit) (do_ w StdioClientExit)
  /\ keeps agent_session (do_ w StdioClientExit).
Proof. split; frame. Qed.

Lemma round_trip_session_balance params hp msg text st :
  agent_session st = None ->
  let st' := fst (round_trip w params hp msg text st) in
  tally is_session_exit st' = tally is_session_exit st + session_count st'.
Proof.
  intros Hnone. cbv zeta. unfold round_trip, async_with. rewrite bind_state.
  pose proof (do_no_session_exit (StdioClientEnter params) ltac:(discriminate) st) as T1.
  pose proof (do_keeps_session (StdioClientEnter params) st) as S1.
  destruct (do w (StdioClientEnter params) st) as [s1 [v1|e1]]; simpl in T1, S1;
    [| unfold session_count; rewrite S1, Hnone, T1; lia ].
  rewrite try_finally_state.
  destruct transport_exit_keeps as [TX SX].
  unfold session_count. rewrite TX, SX, bind_state.
  match goal with |- context [match ?m s1 with _ => _ end] =>
    assert (T2 : keeps (tally is_session_exit) m) by frame;
    assert (S2 : keeps agent_session m) by frame;
    specialize (T2 s1); specialize (S2 s1);
    destruct (m s1) as [s2 [v2|e2]]; simpl in T2, S2
  end; [| rewrite S2, S1, Hnone, T2, T1; lia ].
  rewrite try_finally_state, session_exit_counts, session_exit_keeps_session.
  rewrite bind_state. cbn [write_session].
  match goal with |- context [fst (?m ?s)] =>
    assert (T3 : keeps (tally is_session_exit) m) by frame;
    assert (S3 : keeps agent_session m) by frame;
    rewrite (T3 s), (S3 s)
  end.
  cbn [agent_session]. change (tally is_session_exit _) with (tally is_session_exit s2) at 1.
  rewrite T2, T1. reflexivity.
Qed.

(** [cleanup] calls [session.close()] once when the agent holds a session
    that offers [close], and not at all otherwise. *)
Lemma cleanup_close_count st :
  tally is_session_close (fst (cleanup w st))
  = tally is_session_close st
    + (if session_has_close w then session_count st else 0).
Proof.
  assert (Hclose : forall s, tally is_session_close (fst (do_ w SessionClose s))
                             = tally is_session_close s + 1).
  { intros s. unfold do_, do, bind, lift. simpl.
    destruct (oracle w SessionClose); simpl;
      unfold tally; simpl; rewrite count_ev_app; reflexivity. }
  assert (Hsleep : keeps (tally is_session_close) (do_ w (Sleep 100))) by frame.
  unfold cleanup. rewrite bind_state. cbn [emit].
  rewrite (try_except_obs (tally is_session_close)) by (intros e; frame).
  rewrite bind_state. cbn [read_session agent_session]. rewrite bind_state.
  set (s1 := {| trace := (trace st ++ [EvCleanup])%list; history := history st;
                agent_session := agent_session st |}).
  assert (Hs1 : tally is_session_close s1 = tally is_session_close st).
  { unfold tally, s1. simpl. rewrite count_ev_app. unfold count_ev at 2. simpl. lia. }
  unfold session_count.
  destruct (agent_session st) as [u|]; destruct (session_has_close w); simpl;
    try (rewrite Hsleep, Hs1; lia).
  specialize (Hclose s1).
  destruct (do_ w SessionClose s1) as [s2 [v|e]]; simpl in Hclose.
  - rewrite Hsleep, Hclose, Hs1. reflexivity.
  - rewrite Hclose, Hs1. reflexivity.
Qed.

Lemma teardown_close_count st :
  tally is_session_close (fst (teardown w st))
  = tally is_session_close st
    + (if session_has_close w then session_count st else 0).
Proof.
  unfold teardown. rewrite bind_state.
  pose proof (cleanup_close_count st) as Hc.
  destruct (cleanup w st) as [s1 [u|e]]; simpl in Hc; [|exact Hc].
  assert (Hk : keeps (tally is_session_close) (do_ w (Sleep 200))) by frame.
  now rewrite Hk.
Qed.

End SessionBalance.

(** ** The query stage as a whole *)

Section QueryStage.

Variable w : World.

(** Once classification has succeeded the run is the query stage. *)
Lemma process_chat_message_query msg st st1 hp text :
  missing_variables w = [] ->
  analyze_symptoms w msg (entered w st) = (st1, Val (hp, text)) ->
  needs_clarification text = false ->
  process_chat_message w msg st = query_database w hp msg text st1.
Proof.
  intros Hmiss Han Hnc. unfold process_chat_message, bind.
  rewrite enter_run, Hmiss, Han, Hnc. reflexivity.
Qed.

Lemma query_database_cleanup_once hp msg text st :
  tally is_cleanup (fst (query_database w hp msg text st))
  = tally is_cleanup st + 1.
Proof.
  unfold query_database. rewrite bind_state, prepare_run, try_finally_state.
  rewrite teardown_counts_once.
  rewrite (try_except_obs (tally is_cleanup)) by apply query_error_no_cleanup.
  rewrite round_trip_no_cleanup, prepared_tally by reflexivity. reflexivity.
Qed.

Lemma query_database_session_balance hp msg text st :
  let st' := fst (query_database w hp msg text st) in
  tally is_session_exit st' = tally is_session_exit st + session_count st'.
Proof.
  cbv zeta. unfold query_database, session_count.
  rewrite bind_state, prepare_run, try_finally_state.
  rewrite teardown_no_session_exit, teardown_keeps_session.
  rewrite (try_except_obs (tally is_session_exit)) by apply query_error_no_session_exit.
  rewrite (try_except_obs agent_session) by apply query_error_keeps_session.
  pose proof (round_trip_session_balance w (stdio_server_parameters w) hp msg text
                (prepared w text st) (prepared_session w text st)) as H.
  cbv zeta in H. unfold session_count in H. rewrite H.
  rewrite prepared_tally by reflexivity. reflexivity.
Qed.

Lemma query_database_close_count hp msg text st :
  tally is_session_close (fst (query_database w hp msg text st))
  = tally is_session_close st
    + (if session_has_close w
       then session_count (fst (query_database w hp msg text st)) else 0).
Proof.
  unfold query_database, session_count.
  rewrite bind_state, prepare_run, try_finally_state.
  rewrite teardown_close_count, teardown_keeps_session. unfold session_count.
  assert (Hq : forall e, keeps (tally is_session_close) (query_error w e))
    by (intros e; frame).
  assert (Hr : keeps (tally is_session_close)
                 (round_trip w (stdio_server_parameters w) hp msg text)) by frame.
  rewrite (try_except_obs (tally is_session_close)) by exact Hq.
  rewrite Hr, prepared_tally by reflexivity. reflexivity.
Qed.

(** With no cancellation in its way the teardown completes silently. *)
Lemma teardown_quiet st : quiet_teardown w -> snd (teardown w st) = Val tt.
Proof.
  intros (Hclose & Hsleep & v & H200).
  unfold teardown, cleanup, try_except, do_, do, log, bind, lift, emit, read_session, ret.
  simpl.
  destruct (bool_decide (is_Some (agent_session st)) && session_has_close w); simpl.
  - destruct (oracle w SessionClose) as [v1|[c m|b]] eqn:E1; simpl.
    + destruct (oracle w (Sleep 100)) as [v2|[c m|b]] eqn:E2; simpl.
      * now rewrite H200.
      * now rewrite H200.
      * now destruct (Hsleep b).
    + now rewrite H200.
    + now destruct (Hclose b).
  - destruct (oracle w (Sleep 100)) as [v2|[c m|b]] eqn:E2; simpl.
    + now rewrite H200.
    + now rewrite H200.
    + now destruct (Hsleep b).
Qed.

End QueryStage.

(** ** The claims *)

(** What the query stage adds to the trace of a run whose classification
    has succeeded. *)
Lemma classified_run_counts (w : World) msg st st1 hp text :
  missing_variables w = [] ->
  analyze_symptoms w msg (entered w st) = (st1, Val (hp, text)) ->
  needs_clarification text = false ->
  tally is_cleanup (fst (process_chat_message w msg st)) = tally is_cleanup st + 1
  /\ tally is_session_exit (fst (process_chat_message w msg st))
     = tally is_session_exit st + session_count (fst (process_chat_message w msg st))
  /\ tally is_session_close (fst (process_chat_message w msg st))
     = tally is_session_close st
       + (if session_has_close w
          then session_count (fst (process_chat_message w msg st)) else 0).
Proof.
  intros Hmiss Han Hnc.
  rewrite (process_chat_message_query w msg st st1 hp text Hmiss Han Hnc).
  pose proof (analyze_symptoms_no_cleanup w msg (entered w st)) as Hc.
  pose proof (analyze_symptoms_no_session_exit w msg (entered w st)) as Hx.
  assert (Hk : keeps (tally is_session_close) (analyze_symptoms w msg)) by frame.
  specialize (Hk (entered w st)).
  rewrite Han in Hc, Hx, Hk. simpl in Hc, Hx, Hk.
  rewrite entered_tally in Hc, Hx, Hk by reflexivity.
  split; [|split].
  - rewrite query_database_cleanup_once. congruence.
  - rewrite (query_database_session_balance w hp msg text st1). congruence.
  - rewrite (query_database_close_count w hp msg text st1). congruence.
Qed.

(** C1.  When classification has succeeded (all credentials present, the
    analysis step returned a text that needs no clarification), the run
    enters [DatabaseAgent.cleanup] exactly once, however the query stage
    ends: normal return, an exception anywhere in the round trip, or a
    cancellation delivered at any await.  Moreover the protocol session is
    left through [ClientSession.__aexit__] exactly once when it was entered
    ([db_agent.session] is set) and never otherwise, and [cleanup] calls
    [session.close()] exactly once on such a session when it offers [close]. *)
Theorem cleanup_exactly_once (w : World) msg st st1 hp text :
  missing_variables w = [] ->
  analyze_symptoms w msg (entered w st) = (st1, Val (hp, text)) ->
  needs_clarification text = false ->
  tally is_cleanup (fst (process_chat_message w msg st)) = tally is_cleanup st + 1
  /\ tally is_session_exit (fst (process_chat_message w msg st))
     = tally is_session_exit st + session_count (fst (process_chat_message w msg st))
  /\ tally is_session_close (fst (process_chat_message w msg st))
     = tally is_session_close st
       + (if session_has_close w
          then session_count (fst (process_chat_message w msg st)) else 0).
Proof. exact (classified_run_counts w msg st st1 hp text). Qed.

Lemma cleanup_exactly_once_witness :
  missing_variables Samples.w_query_cancelled = []
  /\ needs_clarification "Cardiologist, Cardiology" = false
  /\ tally is_cleanup
       (fst (process_chat_message Samples.w_query_cancelled Samples.msg_chest
               (init_state Samples.one_turn))) = 1
  /\ tally is_session_exit
       (fst (process_chat_message Samples.w_query_cancelled Samples.msg_chest
               (init_state Samples.one_turn))) = 1
  /\ tally is_session_close
       (fst (process_chat_message Samples.w_query_cancelled Samples.msg_chest
               (init_state Samples.one_turn))) = 1.
Proof.
  split; [reflexivity|]. split; [reflexivity|].
  edestruct (cleanup_exactly_once Samples.w_query_cancelled Samples.msg_chest
               (init_state Samples.one_turn)) as (H1 & H2 & H3).
  - reflexivity.
  - vm_compute. reflexivity.
  - reflexivity.
  - rewrite H1, H3. split; [reflexivity|]. split; [|reflexivity].
    vm_compute. reflexivity.
Defined.

(** The run of the witness above: the cancellation leaves the invocation,
    after both context managers were left and [cleanup] closed the session. *)
Example cancelled_query_trace :
  snd (process_chat_message Samples.w_query_cancelled Samples.msg_chest
         (init_state Samples.one_turn)) = Raise (Cancelled true)
  /\ skipn 18 (trace (fst (process_chat_message Samples.w_query_cancelled
                             Samples.msg_chest (init_state Samples.one_turn))))
     = [EvCall ClientSessionExit; EvCall StdioClientExit; EvCleanup;
        EvCall SessionClose; EvCall (Sleep 100); EvCall (Sleep 200)].
Proof. split; vm_compute; reflexivity. Qed.

Lemma mk_result_status r s : mk_result r s !! "status" = Some s.
Proof.
  unfold mk_result. rewrite lookup_insert_ne by discriminate.
  apply lookup_insert_eq.
Qed.

Lemma mk_result_response r s : mk_result r s !! "response" = Some r.
Proof. unfold mk_result. apply lookup_insert_eq. Qed.

Lemma unset_absent (w : World) var : environ w !! var = None -> unset w var = true.
Proof. intros H. unfold unset, getenv. now rewrite H. Qed.

(** C2.  When one of DB_HOST, DB_USER, DB_PASSWORD, DB_NAME is absent from
    the environment, [process_chat_message] returns the error result
    ["Error: Missing environment variables: ..."], whose text contains the
    name of every absent variable; the only thing the run has done is write
    its first log line: no library call at all, hence no classifier call
    and no subprocess spawn. *)
Theorem missing_credentials_error (w : World) msg st var :
  In var required_variables ->
  environ w !! var = None ->
  exists resp,
    process_chat_message w msg st = (entered w st, Val (mk_result resp "error"))
    /\ resp = "Error: Missing environment variables: "
              ++ PyStr.join ", " (missing_variables w)
    /\ PyStr.contains var resp = true
    /\ mk_result resp "error" !! "status" = Some "error"
    /\ trace (entered w st)
       = (trace st ++ [EvLog Info ("Platform: " ++ platform w
                                   ++ ", Event loop policy: " ++ loop_policy w)])%list
    /\ tally is_call (entered w st) = tally is_call st.
Proof.
  intros Hin Habs.
  assert (Hmiss : In var (missing_variables w)).
  { unfold missing_variables. apply List.filter_In. split; [exact Hin|].
    now apply unset_absent. }
  eexists. split; [|split; [reflexivity|]].
  - unfold process_chat_message, bind. rewrite enter_run.
    destruct (missing_variables w) as [|v l]; [destruct Hmiss | reflexivity].
  - split; [|split; [apply mk_result_status|split; [reflexivity|]]].
    + apply contains_app_r, join_contains, Hmiss.
    + apply entered_tally. reflexivity.
Qed.

Lemma missing_credentials_error_witness :
  In "DB_HOST" required_variables
  /\ environ Samples.w_no_host !! "DB_HOST" = None
  /\ exists resp,
       process_chat_message Samples.w_no_host Samples.msg_chest (init_state [])
       = (entered Samples.w_no_host (init_state []), Val (mk_result resp "error"))
       /\ resp = "Error: Missing environment variables: "
                 ++ PyStr.join ", " (missing_variables Samples.w_no_host)
       /\ PyStr.contains "DB_HOST" resp = true
       /\ mk_result resp "error" !! "status" = Some "error"
       /\ trace (entered Samples.w_no_host (init_state []))
          = (trace (init_state [])
             ++ [EvLog Info ("Platform: " ++ platform Samples.w_no_host
                             ++ ", Event loop policy: "
                             ++ loop_policy Samples.w_no_host)])%list
       /\ tally is_call (entered Samples.w_no_host (init_state []))
          = tally is_call (init_state []).
Proof.
  split; [simpl; auto|]. split; [reflexivity|].
  apply (missing_credentials_error Samples.w_no_host Samples.msg_chest (init_state [])
           "DB_HOST"); [simpl; auto | reflexivity].
Defined.

(** The text the analysis step returns is the trimmed answer of the
    classifier to the prompt built from the history and the message. *)
Lemma analyze_symptoms_text (w : World) msg st st1 hp text :
  analyze_symptoms w msg st = (st1, Val (hp, text)) ->
  exists raw,
    oracle w (Arun Analyzer (symptom_prompt hp msg)) = Val (VStr raw)
    /\ text = PyStr.strip raw.
Proof.
  unfold analyze_symptoms. intros H.
  do 4 (unfold bind at 1 in H;
        match type of H with
        | (match ?m ?s with _ => _ end) = _ =>
            destruct (m s) as [? [?|?]]; [|discriminate]
        end).
  unfold bind at 1 in H.
  match type of H with
  | (match do w ?c ?s with _ => _ end) = _ =>
      assert (Hdo : snd (do w c s) = oracle w c) by reflexivity;
      destruct (do w c s) as [s5 [v|e]]; [|discriminate]
  end.
  simpl in Hdo. unfold bind, content_strip, ret, raise in H.
  destruct v as [raw|]; [|discriminate].
  injection H as _ <- <-. eauto.
Qed.

(** C3.  When the trimmed answer of the classifier is empty or contains a
    question mark, [process_chat_message] returns status "clarification":
    with that text when it is not empty, with the fallback question
    "Could you describe your symptoms?" when it is.  The run stops where
    the analysis step stopped: no subprocess is spawned and no session is
    opened. *)
Theorem clarification_short_circuit (w : World) msg st st1 hp text :
  missing_variables w = [] ->
  analyze_symptoms w msg (entered w st) = (st1, Val (hp, text)) ->
  text = EmptyString \/ PyStr.contains "?" text = true ->
  exists raw resp,
    oracle w (Arun Analyzer (symptom_prompt hp msg)) = Val (VStr raw)
    /\ text = PyStr.strip raw
    /\ process_chat_message w msg st = (st1, Val (mk_result resp "clarification"))
    /\ (text = EmptyString -> resp = "Could you describe your symptoms?")
    /\ (text <> EmptyString -> resp = text)
    /\ tally opens_session st1 = tally opens_session st.
Proof.
  intros Hmiss Han Hq.
  destruct (analyze_symptoms_text w msg _ _ _ _ Han) as (raw & Hraw & Htext).
  exists raw, (if PyStr.truthy text then text else "Could you describe your symptoms?").
  split; [exact Hraw|]. split; [exact Htext|]. split; [|split; [|split]].
  - unfold process_chat_message, bind. rewrite enter_run, Hmiss, Han.
    assert (Hnc : needs_clarification text = true).
    { unfold needs_clarification. destruct Hq as [-> | ->]; [reflexivity|].
      apply orb_true_r. }
    now rewrite Hnc.
  - now intros ->.
  - intros Hne. destruct text; [congruence | reflexivity].
  - pose proof (analyze_symptoms_no_session w msg (entered w st)) as H.
    rewrite Han in H. simpl in H. rewrite H. apply entered_tally. reflexivity.
Qed.

Lemma clarification_short_circuit_witness :
  missing_variables Samples.w_unsure = []
  /\ PyStr.contains "?" "Could you describe any symptoms you're experiencing?" = true
  /\ exists raw resp,
       oracle Samples.w_unsure (Arun Analyzer (symptom_prompt EmptyString Samples.msg_chest))
       = Val (VStr raw)
       /\ "Could you describe any symptoms you're experiencing?" = PyStr.strip raw
       /\ process_chat_message Samples.w_unsure Samples.msg_chest (init_state [])
          = (fst (analyze_symptoms Samples.w_unsure Samples.msg_chest
                    (entered Samples.w_unsure (init_state []))),
             Val (mk_result resp "clarification"))
       /\ ("Could you describe any symptoms you're experiencing?" = EmptyString ->
           resp = "Could you describe your symptoms?")
       /\ ("Could you describe any symptoms you're experiencing?" <> EmptyString ->
           resp = "Could you describe any symptoms you're experiencing?")
       /\ tally opens_session
            (fst (analyze_symptoms Samples.w_unsure Samples.msg_chest
                    (entered Samples.w_unsure (init_state []))))
          = tally opens_session (init_state []).
Proof.
  split; [reflexivity|]. split; [reflexivity|].
  apply (clarification_short_circuit Samples.w_unsure Samples.msg_chest (init_state [])).
  - reflexivity.
  - vm_compute. reflexivity.
  - right. reflexivity.
Defined.

(** ** The hosted wrapper *)

Lemma not_blank_truthy msg :
  PyStr.all_space msg = false -> negb (PyStr.truthy (PyStr.strip msg)) = false.
Proof.
  intros H. destruct (PyStr.strip msg) eqn:E; [|reflexivity].
  apply strip_empty_iff in E. congruence.
Qed.

(** A result of [process_chat_message] goes through the wrapper unchanged. *)
Lemma wrapper_passes_value (w : World) msg st st' r :
  PyStr.all_space msg = false ->
  process_chat_message w msg st = (st', Val r) ->
  process_user_message_async w msg st = (st', Val r).
Proof.
  intros Hb H. unfold process_user_message_async.
  rewrite (not_blank_truthy msg Hb). unfold try_except, wait_for.
  now rewrite H.
Qed.

(** An [Exception] leaving [process_chat_message] is turned into an error
    result by the wrapper. *)
Lemma wrapper_absorbs_exception (w : World) msg st st' c m :
  PyStr.all_space msg = false ->
  process_chat_message w msg st = (st', Raise (Exc c m)) ->
  exists resp,
    process_user_message_async w msg st = (st', Val (mk_result resp "error"))
    /\ (c <> TimeoutError ->
        resp = "Error processing message: " ++ m ++ PyStr.nl
               ++ "Please check if 'uvx mcp-sql-server' is accessible and the database is running.")
    /\ (c = TimeoutError ->
        resp = "Error: Database query timed out after 30 seconds. Please check if the database server is running.").
Proof.
  intros Hb H. unfold process_user_message_async.
  rewrite (not_blank_truthy msg Hb). unfold try_except, wait_for.
  rewrite H. simpl.
  destruct c; eexists; (split; [reflexivity|]); split; intros Hc;
    try reflexivity; congruence.
Qed.

(** C4.  When the query stage is reached and the round trip (spawn,
    handshake, agent creation, query run, leaving the two context managers)
    ends in an exception, [process_chat_message] returns the error result
    carrying the exception text, [cleanup] has run exactly once, and the
    hosted wrapper returns that same result: nothing propagates.  The
    teardown is assumed not to be cancelled. *)
Theorem round_trip_error_absorbed (w : World) msg st st1 hp text st2 c m :
  missing_variables w = [] ->
  analyze_symptoms w msg (entered w st) = (st1, Val (hp, text)) ->
  needs_clarification text = false ->
  round_trip w (stdio_server_parameters w) hp msg text (prepared w text st1)
  = (st2, Raise (Exc c m)) ->
  quiet_teardown w ->
  snd (process_chat_message w msg st)
  = Val (mk_result ("Error: Unable to fetch consultants: " ++ m) "error")
  /\ mk_result ("Error: Unable to fetch consultants: " ++ m) "error" !! "status"
     = Some "error"
  /\ tally is_cleanup (fst (process_chat_message w msg st)) = tally is_cleanup st + 1
  /\ (PyStr.all_space msg = false ->
      snd (process_user_message_async w msg st)
      = Val (mk_result ("Error: Unable to fetch consultants: " ++ m) "error")).
Proof.
  intros Hmiss Han Hnc Hrt Hq.
  assert (Hrun : snd (process_chat_message w msg st)
                 = Val (mk_result ("Error: Unable to fetch consultants: " ++ m) "error")).
  { rewrite (process_chat_message_query w msg st st1 hp text Hmiss Han Hnc).
    unfold query_database, bind. rewrite prepare_run.
    unfold try_finally, try_except. rewrite Hrt. simpl.
    unfold query_error, log, bind, emit, ret. simpl.
    match goal with |- context [teardown w ?s] =>
      pose proof (teardown_quiet w s Hq) as Ht; destruct (teardown w s) as [s' [u|e]]
    end; simpl in Ht; [reflexivity | discriminate]. }
  split; [exact Hrun|]. split; [apply mk_result_status|]. split.
  - exact (proj1 (classified_run_counts w msg st st1 hp text Hmiss Han Hnc)).
  - intros Hb. destruct (process_chat_message w msg st) as [s' r] eqn:E.
    simpl in Hrun. subst r.
    now rewrite (wrapper_passes_value w msg st s' _ Hb E).
Qed.

Lemma round_trip_error_absorbed_witness :
  missing_variables Samples.w_spawn_fails = []
  /\ needs_clarification "Cardiologist, Cardiology" = false
  /\ quiet_teardown Samples.w_spawn_fails
  /\ PyStr.all_space Samples.msg_chest = false
  /\ snd (process_chat_message Samples.w_spawn_fails Samples.msg_chest (init_state []))
     = Val (mk_result ("Error: Unable to fetch consultants: " ++ "uvx: command not found")
              "error")
  /\ snd (process_user_message_async Samples.w_spawn_fails Samples.msg_chest (init_state []))
     = Val (mk_result ("Error: Unable to fetch consultants: " ++ "uvx: command not found")
              "error").
Proof.
  assert (Hq : quiet_teardown Samples.w_spawn_fails).
  { repeat split; try (intros b; discriminate). exists VNone. reflexivity. }
  split; [reflexivity|]. split; [reflexivity|]. split; [exact Hq|].
  split; [reflexivity|].
  edestruct (round_trip_error_absorbed Samples.w_spawn_fails Samples.msg_chest
               (init_state [])) as (H1 & _ & _ & H2).
  - reflexivity.
  - vm_compute. reflexivity.
  - reflexivity.
  - vm_compute. reflexivity.
  - exact Hq.
  - split; [exact H1 | apply H2; reflexivity].
Defined.

(** Step 1 runs outside the [try] of [process_chat_message]: an exception
    of the analysis step leaves the function as it is. *)
Lemma analysis_failure_propagates (w : World) msg st st1 e :
  missing_variables w = [] ->
  analyze_symptoms w msg (entered w st) = (st1, Raise e) ->
  process_chat_message w msg st = (st1, Raise e).
Proof.
  intros Hmiss Han. unfold process_chat_message, bind.
  now rewrite enter_run, Hmiss, Han.
Qed.

Example classifier_failure_leaves_process_chat_message :
  snd (process_chat_message Samples.w_classifier_down Samples.msg_chest (init_state []))
  = Raise (Exc OtherError "Connection error.").
Proof. vm_compute. reflexivity. Qed.

(** C5.  In a hosted invocation an exception of the analysis step, the
    failure of the classifier's model call included, never reaches the UI:
    [process_user_message_async] returns a status "error" result whose text
    is "Error processing message: <exception text>" followed by the operator
    hint (the timeout text when the exception is a [TimeoutError]).  The
    [except] clause that does this is the wrapper's. *)
Theorem classifier_failure_absorbed (w : World) msg st st1 c m :
  missing_variables w = [] ->
  analyze_symptoms w msg (entered w st) = (st1, Raise (Exc c m)) ->
  PyStr.all_space msg = false ->
  exists resp,
    process_user_message_async w msg st = (st1, Val (mk_result resp "error"))
    /\ mk_result resp "error" !! "status" = Some "error"
    /\ mk_result resp "error" !! "response" = Some resp
    /\ (c <> TimeoutError ->
        resp = "Error processing message: " ++ m ++ PyStr.nl
               ++ "Please check if 'uvx mcp-sql-server' is accessible and the database is running.")
    /\ (c = TimeoutError ->
        resp = "Error: Database query timed out after 30 seconds. Please check if the database server is running.").
Proof.
  intros Hmiss Han Hb.
  pose proof (analysis_failure_propagates w msg st st1 _ Hmiss Han) as Hrun.
  destruct (wrapper_absorbs_exception w msg st st1 c m Hb Hrun) as (resp & H1 & H2 & H3).
  exists resp. split; [exact H1|]. split; [apply mk_result_status|].
  split; [apply mk_result_response|]. split; assumption.
Qed.

Lemma classifier_failure_absorbed_witness :
  missing_variables Samples.w_classifier_down = []
  /\ PyStr.all_space Samples.msg_chest = false
  /\ oracle Samples.w_classifier_down
       (Arun Analyzer (symptom_prompt EmptyString Samples.msg_chest))
     = Raise (Exc OtherError "Connection error.")
  /\ exists resp,
       snd (process_user_message_async Samples.w_classifier_down Samples.msg_chest
              (init_state [])) = Val (mk_result resp "error")
       /\ resp = "Error processing message: " ++ "Connection error." ++ PyStr.nl
                 ++ "Please check if 'uvx mcp-sql-server' is accessible and the database is running.".
Proof.
  split; [reflexivity|]. split; [reflexivity|]. split; [reflexivity|].
  edestruct (classifier_failure_absorbed Samples.w_classifier_down
               Samples.msg_chest (init_state [])) as (resp & H1 & _ & _ & H2 & _).
  - reflexivity.
  - vm_compute. reflexivity.
  - reflexivity.
  - exists resp. split; [now rewrite H1|]. apply H2. discriminate.
Defined.

(** The values the round trip returns. *)
Lemma round_trip_value (w : World) params hp msg text st st2 r :
  round_trip w params hp msg text st = (st2, Val r) ->
  exists raw,
    oracle w (Arun DbAgent (db_prompt hp msg text)) = Val (VStr raw)
    /\ r = mk_result (PyStr.strip raw) "success".
Proof.
  revert st st2 r.
  change (returns (fun r => exists raw,
            oracle w (Arun DbAgent (db_prompt hp msg text)) = Val (VStr raw)
            /\ r = mk_result (PyStr.strip raw) "success")
          (round_trip w params hp msg text)).
  unfold round_trip.
  apply returns_async_with; intros _.
  apply returns_async_with; intros _.
  do 3 (apply returns_bind; intros ?).
  intros s s' r H. unfold bind at 1 in H.
  match type of H with
  | (match do w ?c ?s with _ => _ end) = _ =>
      assert (Hdo : snd (do w c s) = oracle w c) by reflexivity;
      destruct (do w c s) as [s5 [v|e]]; [|discriminate]
  end.
  simpl in Hdo. unfold bind, content_strip, ret, raise in H.
  destruct v as [raw|]; [|discriminate].
  injection H as _ <-. eauto.
Qed.

(** A question from the query agent is returned with status "success". *)
Lemma question_from_query_agent_is_success :
  exists r,
    snd (process_chat_message Samples.w_question Samples.msg_chest (init_state []))
    = Val r
    /\ r !! "response" = Some "Which specialty do you mean?"
    /\ PyStr.contains "?" "Which specialty do you mean?" = true
    /\ PyStr.contains "Found consultants:" "Which specialty do you mean?" = false
    /\ r !! "status" = Some "success"
    /\ r !! "status" <> Some "clarification".
Proof.
  exists (mk_result "Which specialty do you mean?" "success").
  split; [vm_compute; reflexivity|].
  rewrite mk_result_response, mk_result_status.
  repeat split; try reflexivity. discriminate.
Qed.

(** C6 (amended).  When the round trip completes without error (and the
    teardown is not cancelled), [process_chat_message] returns the trimmed
    final text of the query agent with status "success", whatever that text
    is: the query stage never answers with status "clarification". *)
Theorem completed_round_trip_is_success (w : World) msg st st1 hp text st2 r :
  missing_variables w = [] ->
  analyze_symptoms w msg (entered w st) = (st1, Val (hp, text)) ->
  needs_clarification text = false ->
  round_trip w (stdio_server_parameters w) hp msg text (prepared w text st1)
  = (st2, Val r) ->
  quiet_teardown w ->
  snd (process_chat_message w msg st) = Val r
  /\ exists raw,
       oracle w (Arun DbAgent (db_prompt hp msg text)) = Val (VStr raw)
       /\ r = mk_result (PyStr.strip raw) "success"
       /\ r !! "response" = Some (PyStr.strip raw)
       /\ r !! "status" = Some "success".
Proof.
  intros Hmiss Han Hnc Hrt Hq. split.
  - rewrite (process_chat_message_query w msg st st1 hp text Hmiss Han Hnc).
    unfold query_database, bind. rewrite prepare_run.
    unfold try_finally, try_except. rewrite Hrt.
    pose proof (teardown_quiet w st2 Hq) as Ht.
    destruct (teardown w st2) as [s' [u|e]]; simpl in Ht; [reflexivity | discriminate].
  - destruct (round_trip_value w _ _ _ _ _ _ _ Hrt) as (raw & Hraw & ->).
    exists raw. rewrite mk_result_response, mk_result_status. auto.
Qed.

Lemma completed_round_trip_is_success_witness :
  missing_variables Samples.w_question = []
  /\ needs_clarification "Cardiologist, Cardiology" = false
  /\ quiet_teardown Samples.w_question
  /\ snd (process_chat_message Samples.w_question Samples.msg_chest (init_state []))
     = Val (mk_result "Which specialty do you mean?" "success").
Proof.
  assert (Hq : quiet_teardown Samples.w_question).
  { repeat split; try (intros b; discriminate). exists VNone. reflexivity. }
  split; [reflexivity|]. split; [reflexivity|]. split; [exact Hq|].
  edestruct (completed_round_trip_is_success Samples.w_question Samples.msg_chest
               (init_state [])) as (H1 & _).
  - reflexivity.
  - vm_compute. reflexivity.
  - reflexivity.
  - vm_compute. reflexivity.
  - exact Hq.
  - rewrite H1. reflexivity.
Defined.

(** ** Status of every returned result *)

Lemma valid_status_mk r s :
  In s ["success"; "clarification"; "error"] -> valid_status (mk_result r s).
Proof. intros H. exists s. split; [apply mk_result_status | exact H]. Qed.

Ltac returns_step :=
  match goal with
  | |- returns _ (ret (mk_result _ _)) =>
      apply returns_ret, valid_status_mk; simpl; auto
  | |- returns _ (raise _) => apply returns_raise
  | |- returns _ (wait_for _) => apply returns_wait_for
  | |- returns _ (try_finally _ _) => apply returns_try_finally
  | |- returns _ (try_except _ _) => apply returns_try_except; [|intros ?]
  | |- returns _ (async_with _ _ _) => apply returns_async_with; intros ?
  | |- returns _ (bind _ _) => apply returns_bind; intros ?
  | |- returns _ (match ?x with _ => _ end) => destruct x
  end.

Lemma process_chat_message_status (w : World) msg :
  returns valid_status (process_chat_message w msg).
Proof.
  unfold process_chat_message, query_database, round_trip, query_error.
  repeat returns_step.
Qed.

Lemma process_user_message_async_status (w : World) msg :
  returns valid_status (process_user_message_async w msg).
Proof.
  unfold process_user_message_async.
  destruct (negb (PyStr.truthy (PyStr.strip msg))).
  - returns_step.
  - apply returns_try_except.
    + apply returns_wait_for, process_chat_message_status.
    + intros e. destruct e as [[] m|b]; returns_step.
Qed.

(** C7.  A result returned by [process_chat_message] or by the hosted
    wrapper [process_user_message_async] has a "status" entry, and its value
    is one of "success", "clarification", "error". *)
Theorem returned_status_is_valid (w : World) msg st st' r :
  process_chat_message w msg st = (st', Val r)
  \/ process_user_message_async w msg st = (st', Val r) ->
  exists s, r !! "status" = Some s /\ In s ["success"; "clarification"; "error"].
Proof.
  intros [H | H].
  - exact (process_chat_message_status w msg st st' r H).
  - exact (process_user_message_async_status w msg st st' r H).
Qed.

Lemma returned_status_is_valid_witness :
  exists s,
    mk_result "Found consultants: [Dr. Perera - Cardiology]" "success" !! "status" = Some s
    /\ In s ["success"; "clarification"; "error"].
Proof.
  eapply (returned_status_is_valid Samples.w_found Samples.msg_chest
            (init_state Samples.one_turn)).
  left. vm_compute. reflexivity.
Defined.

(** Unless the hosting task itself is cancelled, the wrapper always
    returns a result. *)
Lemma process_user_message_async_total (w : World) msg st :
  (exists r, snd (process_user_message_async w msg st) = Val r /\ valid_status r)
  \/ snd (process_user_message_async w msg st) = Raise (Cancelled false).
Proof.
  destruct (process_user_message_async w msg st) as [st' [r|e]] eqn:E.
  - left. exists r. split; [reflexivity|].
    exact (process_user_message_async_status w msg st st' r E).
  - right. simpl. revert E. unfold process_user_message_async.
    destruct (negb (PyStr.truthy (PyStr.strip msg))); [discriminate|].
    unfold try_except, wait_for.
    destruct (process_chat_message w msg st) as [s1 [r1|[c m|[|]]]]; simpl;
      try discriminate.
    + destruct c; discriminate.
    + now intros [= _ <-].
Qed.

(** C8.  For an empty or all-whitespace message the hosted wrapper returns
    the result "Please enter a valid message." with status "error" at once,
    for every history: the state, and so the trace, is untouched, so that no
    model call and no subprocess spawn has happened. *)
Theorem blank_message_short_circuit (w : World) msg st :
  PyStr.all_space msg = true ->
  process_user_message_async w msg st
  = (st, Val (mk_result "Please enter a valid message." "error"))
  /\ mk_result "Please enter a valid message." "error" !! "response"
     = Some "Please enter a valid message."
  /\ mk_result "Please enter a valid message." "error" !! "status" = Some "error"
  /\ trace (fst (process_user_message_async w msg st)) = trace st.
Proof.
  intros H. apply strip_empty_iff in H.
  assert (E : process_user_message_async w msg st
              = (st, Val (mk_result "Please enter a valid message." "error"))).
  { unfold process_user_message_async. now rewrite H. }
  split; [exact E|]. split; [apply mk_result_response|].
  split; [apply mk_result_status|]. now rewrite E.
Qed.

Lemma blank_message_short_circuit_witness :
  PyStr.all_space EmptyString = true
  /\ process_user_message_async Samples.w_found EmptyString (init_state [])
     = (init_state [], Val (mk_result "Please enter a valid message." "error")).
Proof.
  split; [reflexivity|].
  apply (blank_message_short_circuit Samples.w_found EmptyString (init_state [])).
  reflexivity.
Defined.

(** Called directly, [process_chat_message] has no such guard: an empty
    message is sent to the classifier. *)
Example empty_message_reaches_classifier :
  tally is_model_call
    (fst (process_chat_message Samples.w_unsure EmptyString (init_state []))) = 3.
Proof. vm_compute. reflexivity. Qed.

(** ** The cleanup never fails *)

Lemma cleanup_returns (w : World) st :
  (forall b, oracle w SessionClose <> Raise (Cancelled b)) ->
  (forall b, oracle w (Sleep 100) <> Raise (Cancelled b)) ->
  snd (cleanup w st) = Val tt.
Proof.
  intros Hclose Hsleep.
  unfold cleanup, try_except, do_, do, log, bind, lift, emit, read_session, ret.
  simpl.
  destruct (bool_decide (is_Some (agent_session st)) && session_has_close w); simpl.
  - destruct (oracle w SessionClose) as [v1|[c m|b]]; simpl.
    + destruct (oracle w (Sleep 100)) as [v2|[c m|b]]; simpl; try reflexivity.
      now destruct (Hsleep b).
    + reflexivity.
    + now destruct (Hclose b).
  - destruct (oracle w (Sleep 100)) as [v2|[c m|b]]; simpl; try reflexivity.
    now destruct (Hsleep b).
Qed.

Lemma cleanup_keeps_session (w : World) : keeps agent_session (cleanup w).
Proof. frame. Qed.

Lemma cleanup_keeps_history (w : World) : keeps history (cleanup w).
Proof. frame. Qed.

(** C9.  [DatabaseAgent.cleanup] returns normally in every state of the
    agent: no session, a session without [close], a session whose [close]
    succeeds, a session whose [close] raises.  A failing [close] is recorded
    as one warning and nothing else happens; the agent and the history are
    left as they were; and a [finally: cleanup()] hands on the result of its
    [try] body untouched.  Cancellation, which is not an [Exception], is
    assumed not to be delivered while [cleanup] awaits. *)
Theorem cleanup_never_raises (w : World) st :
  (forall b, oracle w SessionClose <> Raise (Cancelled b)) ->
  (forall b, oracle w (Sleep 100) <> Raise (Cancelled b)) ->
  snd (cleanup w st) = Val tt
  /\ agent_session (fst (cleanup w st)) = agent_session st
  /\ history (fst (cleanup w st)) = history st
  /\ (forall c m,
        agent_session st <> None -> session_has_close w = true ->
        oracle w SessionClose = Raise (Exc c m) ->
        trace (fst (cleanup w st))
        = (trace st ++ [EvCleanup; EvCall SessionClose;
                        EvLog Warning ("Cleanup warning: " ++ m)])%list)
  /\ (forall (A : Type) (body : M A),
        snd (try_finally body (cleanup w) st) = snd (body st)).
Proof.
  intros Hclose Hsleep.
  split; [now apply cleanup_returns|].
  split; [apply cleanup_keeps_session|].
  split; [apply cleanup_keeps_history|]. split.
  - intros c m Hs Hhas E.
    unfold cleanup, try_except, do_, do, log, bind, lift, emit, read_session, ret.
    simpl. rewrite Hhas, E.
    destruct (agent_session st) as [u|]; [|congruence]. simpl.
    now rewrite <- !app_assoc.
  - intros A body. unfold try_finally. destruct (body st) as [s1 r1].
    pose proof (cleanup_returns w s1 Hclose Hsleep) as Hc.
    destruct (cleanup w s1) as [s2 [u|e]]; simpl in Hc; [reflexivity | discriminate].
Qed.

Lemma cleanup_never_raises_witness :
  oracle Samples.w_close_fails SessionClose = Raise (Exc OtherError "stream closed")
  /\ snd (cleanup Samples.w_close_fails
            {| trace := []; history := []; agent_session := Some tt |}) = Val tt
  /\ trace (fst (cleanup Samples.w_close_fails
                   {| trace := []; history := []; agent_session := Some tt |}))
     = [EvCleanup; EvCall SessionClose; EvLog Warning "Cleanup warning: stream closed"].
Proof.
  split; [reflexivity|].
  edestruct (cleanup_never_raises Samples.w_close_fails
               {| trace := []; history := []; agent_session := Some tt |})
    as (H1 & _ & _ & H2 & _).
  - intros b. discriminate.
  - intros b. discriminate.
  - split; [exact H1|].
    apply (H2 OtherError "stream closed"); [discriminate | reflexivity | reflexivity].
Defined.

(** The whole run of that world: the query result survives the failing
    [close]. *)
Example failing_close_keeps_result :
  snd (process_chat_message Samples.w_close_fails Samples.msg_chest (init_state []))
  = Val (mk_result "No consultants found. Please provide more details or check spelling."
           "success").
Proof. vm_compute. reflexivity. Qed.

(** C10.  [process_chat_message] leaves the list behind
    [conversation_history], and every turn in it, as it found them, however
    it ends; so does the hosted wrapper. *)
Theorem history_never_mutated (w : World) msg st :
  history (fst (process_chat_message w msg st)) = history st
  /\ history (fst (process_user_message_async w msg st)) = history st.
Proof.
  split.
  - apply process_chat_message_keeps_history.
  - apply process_user_message_async_keeps_history.
Qed.

(** ** The scenarios of the specification, run *)

(** Scenario A: symptoms are classified, the query agent lists a consultant. *)
Example scenario_found :
  snd (process_user_message_async Samples.w_found Samples.msg_chest (init_state []))
  = Val (mk_result "Found consultants: [Dr. Perera - Cardiology]" "success").
Proof. vm_compute. reflexivity. Qed.

(** Scenario D: a blank answer of the classifier is replaced by the
    fallback question. *)
Example scenario_blank_answer :
  snd (process_chat_message Samples.w_blank Samples.msg_chest (init_state []))
  = Val (mk_result "Could you describe your symptoms?" "clarification").
Proof. vm_compute. reflexivity. Qed.

(** A deadline that fires during the query becomes the timeout result of
    the wrapper. *)
Example scenario_timeout :
  snd (process_user_message_async Samples.w_query_cancelled Samples.msg_chest
         (init_state []))
  = Val (mk_result "Error: Database query timed out after 30 seconds. Please check if the database server is running." "error").
Proof. vm_compute. reflexivity. Qed.

(** ** Splitting and searching text *)

Section TextFacts.

Import PyStr PyText.

Lemma app_nil_l_str (s : string) : EmptyString ++ s = s.
Proof. reflexivity. Qed.

Lemma app_cons_str c (a b : string) : String c a ++ b = String c (a ++ b).
Proof. reflexivity. Qed.

Lemma app_assoc_str (a b c : string) : (a ++ b) ++ c = a ++ b ++ c.
Proof.
  induction a as [|x a IH]; [reflexivity|].
  rewrite !app_cons_str. now rewrite IH.
Qed.

Lemma has_char_app c a b : has_char c (a ++ b) = has_char c a || has_char c b.
Proof.
  induction a as [|x a IH]; [reflexivity|].
  rewrite app_cons_str. simpl. rewrite IH. now rewrite orb_assoc.
Qed.

Lemma drop_app (a b : string) : drop (String.length a) (a ++ b) = b.
Proof. induction a as [|x a IH]; [now destruct b | exact IH]. Qed.

Lemma prefix_cons a p b s :
  String.prefix (String a p) (String b s)
  = if ascii_dec a b then String.prefix p s else false.
Proof. reflexivity. Qed.

Lemma prefix_cons_ne c0 sep c s : c <> c0 -> String.prefix (String c0 sep) (String c s) = false.
Proof. intros H. simpl. destruct (ascii_dec c0 c); congruence. Qed.

(** [sep] occurs in [s] exactly when [s] can be cut at it. *)
Lemma partition_none sep s : partition sep s = None <-> contains sep s = false.
Proof.
  induction s as [|c s IH].
  - destruct sep; simpl; split; congruence.
  - change (partition sep (String c s))
      with (if String.prefix sep (String c s)
            then Some (EmptyString, drop (String.length sep) (String c s))
            else match partition sep s with
                 | Some (a, b) => Some (String c a, b)
                 | None => None
                 end).
    change (contains sep (String c s))
      with (String.prefix sep (String c s) || contains sep s).
    destruct (String.prefix sep (String c s)); simpl; [split; congruence|].
    destruct (partition sep s) as [[a b]|]; split; intros H;
      try congruence; try (apply IH; assumption).
    + apply IH in H. congruence.
Qed.

(** The first cut falls after [x] when [sep] starts with a character that
    [x] does not hold. *)
Lemma partition_app_first c0 sep x rest :
  has_char c0 x = false ->
  partition (String c0 sep) (x ++ String c0 sep ++ rest) = Some (x, rest).
Proof.
  intros Hx. induction x as [|c x IH].
  - rewrite app_nil_l_str.
    change (partition (String c0 sep) (String c0 sep ++ rest))
      with (if String.prefix (String c0 sep) (String c0 sep ++ rest)
            then Some (EmptyString,
                       drop (String.length (String c0 sep)) (String c0 sep ++ rest))
            else match partition (String c0 sep) (sep ++ rest) with
                 | Some (a, b) => Some (String c0 a, b)
                 | None => None
                 end).
    now rewrite prefix_app, drop_app.
  - simpl in Hx. apply orb_false_elim in Hx as [Hc Hx].
    rewrite app_cons_str.
    change (partition (String c0 sep) (String c (x ++ String c0 sep ++ rest)))
      with (if String.prefix (String c0 sep) (String c (x ++ String c0 sep ++ rest))
            then Some (EmptyString,
                       drop (String.length (String c0 sep))
                         (String c (x ++ String c0 sep ++ rest)))
            else match partition (String c0 sep) (x ++ String c0 sep ++ rest) with
                 | Some (a, b) => Some (String c a, b)
                 | None => None
                 end).
    rewrite prefix_cons_ne, (IH Hx); [reflexivity|].
    intros ->. now rewrite Ascii.eqb_refl in Hc.
Qed.

Lemma partition_no_first c0 sep x :
  has_char c0 x = false -> partition (String c0 sep) x = None.
Proof.
  intros Hx. induction x as [|c x IH]; [reflexivity|].
  simpl in Hx. apply orb_false_elim in Hx as [Hc Hx].
  change (partition (String c0 sep) (String c x))
    with (if String.prefix (String c0 sep) (String c x)
          then Some (EmptyString, drop (String.length (String c0 sep)) (String c x))
          else match partition (String c0 sep) x with
               | Some (a, b) => Some (String c a, b)
               | None => None
               end).
  rewrite prefix_cons_ne, (IH Hx); [reflexivity|].
  intros ->. now rewrite Ascii.eqb_refl in Hc.
Qed.

Lemma length_app_str (a b : string) :
  String.length (a ++ b) = String.length a + String.length b.
Proof. induction a as [|x a IH]; [reflexivity|]. rewrite app_cons_str. simpl. now rewrite IH. Qed.

Lemma join_length_bound c0 sep (l : list string) :
  length l <= S (String.length (join (String c0 sep) l)).
Proof.
  induction l as [|x [|y l] IH]; [simpl; lia | simpl; lia |].
  change (join (String c0 sep) (x :: y :: l))
    with (x ++ String c0 sep ++ join (String c0 sep) (y :: l)).
  rewrite !length_app_str. simpl String.length at 2.
  simpl length in *. lia.
Qed.

Lemma split_fuel_join c0 sep (l : list string) f :
  l <> [] ->
  Forall (fun x => has_char c0 x = false) l ->
  length l <= S f ->
  split_fuel f (String c0 sep) (join (String c0 sep) l) = l.
Proof.
  revert f. induction l as [|x [|y l] IH]; intros f Hne Hall Hlen; [congruence| |].
  - apply Forall_cons in Hall as [Hx _]. simpl join.
    destruct f; [reflexivity|]. simpl. now rewrite partition_no_first.
  - apply Forall_cons in Hall as [Hx Hall].
    change (join (String c0 sep) (x :: y :: l))
      with (x ++ String c0 sep ++ join (String c0 sep) (y :: l)).
    destruct f as [|f]; [simpl in Hlen; lia|].
    simpl split_fuel. rewrite (partition_app_first c0 sep x _ Hx).
    f_equal. apply IH; [discriminate | exact Hall | simpl in *; lia].
Qed.

(** Joining pieces that do not hold the first character of the separator,
    then splitting, gives the pieces back. *)
Lemma split_join c0 sep (l : list string) :
  l <> [] ->
  Forall (fun x => has_char c0 x = false) l ->
  split (String c0 sep) (join (String c0 sep) l) = l.
Proof.
  intros Hne Hall. unfold split. apply split_fuel_join; auto.
  apply join_length_bound.
Qed.

(** A text without the separator is one piece. *)
Lemma split_absent sep s : contains sep s = false -> split sep s = [s].
Proof.
  intros H. apply partition_none in H. unfold split.
  destruct (String.length s); simpl; [reflexivity|]. now rewrite H.
Qed.

Lemma until_bracket_app d tail :
  has_char "]"%char d = false -> has_char "010"%char d = false ->
  until_bracket (d ++ "]" ++ tail) = Some d.
Proof.
  induction d as [|c d IH]; intros H1 H2; [reflexivity|].
  simpl in H1, H2.
  apply orb_false_elim in H1 as [Hc1 H1]. apply orb_false_elim in H2 as [Hc2 H2].
  rewrite app_cons_str. simpl. rewrite Hc1, Hc2, (IH H1 H2). reflexivity.
Qed.

Lemma search_listing_eq s :
  search_listing s
  = match (if String.prefix "Found consultants:" s
           then bracketed (drop 18 s) else None) with
    | Some g => Some g
    | None => match s with
              | EmptyString => None
              | String _ s' => search_listing s'
              end
    end.
Proof. destruct s; reflexivity. Qed.

Lemma search_listing_bracket d tail :
  has_char "]"%char d = false -> has_char "010"%char d = false ->
  search_listing ("Found consultants: [" ++ d ++ "]" ++ tail) = Some d.
Proof.
  intros H1 H2. rewrite search_listing_eq.
  change (String.prefix "Found consultants:"
            ("Found consultants: [" ++ d ++ "]" ++ tail)) with true.
  change (bracketed (drop 18 ("Found consultants: [" ++ d ++ "]" ++ tail)))
    with (until_bracket (d ++ "]" ++ tail)).
  now rewrite until_bracket_app.
Qed.

Lemma partition_dash n s :
  has_char "-"%char n = false ->
  partition " - " (n ++ " - " ++ s) = Some (n, s).
Proof.
  intros Hn. induction n as [|c n IH];
    [exact (partition_app_first " "%char "- " EmptyString s eq_refl)|].
  simpl in Hn. apply orb_false_elim in Hn as [Hc Hn].
  rewrite app_cons_str.
  change (partition " - " (String c (n ++ " - " ++ s)))
    with (if String.prefix " - " (String c (n ++ " - " ++ s))
          then Some (EmptyString, drop 3 (String c (n ++ " - " ++ s)))
          else match partition " - " (n ++ " - " ++ s) with
               | Some (a, b) => Some (String c a, b)
               | None => None
               end).
  rewrite (IH Hn).
  assert (Hp : String.prefix " - " (String c (n ++ " - " ++ s)) = false).
  { rewrite prefix_cons. destruct (ascii_dec " " c); [|reflexivity].
    destruct n as [|d n].
    - rewrite app_nil_l_str.
      change (" - " ++ s) with (String " " ("- " ++ s)).
      rewrite prefix_cons. now destruct (ascii_dec "-" " ").
    - rewrite app_cons_str, prefix_cons.
      simpl in Hn. apply orb_false_elim in Hn as [Hd _].
      destruct (ascii_dec "-" d) as [<-|]; [|reflexivity].
      now rewrite Ascii.eqb_refl in Hd. }
  now rewrite Hp.
Qed.

End TextFacts.

(** ** The presentation of a response *)

Section Presentation.

Import PyStr PyText App.

Lemma render_cards_two i cs : render_cards 2 i cs = Some (cards_from i cs).
Proof.
  revert i. induction cs as [|c cs IH]; intros i; [reflexivity|].
  cbn [render_cards cards_from]. rewrite IH.
  destruct (Nat.ltb_spec (i mod 2) 2) as [_|H]; [reflexivity|].
  pose proof (Nat.mod_upper_bound i 2). lia.
Qed.

Lemma render_cards_min cs :
  cs <> [] -> render_cards (Nat.min (length cs) 2) 0 cs = Some (cards_from 0 cs).
Proof.
  destruct cs as [|c [|c' cs]]; intros H; [congruence | reflexivity |].
  replace (Nat.min (length (c :: c' :: cs)) 2) with 2 by (simpl length; lia).
  apply render_cards_two.
Qed.

Lemma cards_from_count i cs : count_occ bool_dec (map is_card (cards_from i cs)) true = length cs.
Proof.
  revert i. induction cs as [|c cs IH]; intros i; [reflexivity|].
  cbn [cards_from map is_card count_occ]. 
  destruct (bool_dec true true); [|congruence]. now rewrite IH.
Qed.

Lemma cards_from_column i cs k c :
  In (StCard k c) (cards_from i cs) -> k < 2 /\ (length cs = 1 -> k = i mod 2).
Proof.
  revert i. induction cs as [|c0 cs IH]; intros i; [intros []|].
  cbn [cards_from In]. intros [Heq | Hin].
  - assert (Hk : k = i mod 2) by congruence.
    split; [|intros _; exact Hk].
    rewrite Hk. apply Nat.mod_upper_bound. lia.
  - destruct (IH _ Hin) as [Hk _]. split; [exact Hk|].
    intros Hlen. destruct cs; [destruct Hin | discriminate].
Qed.

Lemma format_assistant_response_cases (text : string) :
  exists out,
    format_assistant_response text = Some out
    /\ (forall n, In (StInfoTotal n) out ->
          0 < n /\ count_occ bool_dec (map is_card out) true = n)
    /\ (forall k c, In (StCard k c) out ->
          exists ncols, In (StColumns ncols) out /\ k < ncols).
Proof.
  unfold format_assistant_response.
  destruct (contains "Found consultants:" text).
  - destruct (search_listing text) as [data|].
    + destruct (parse_consultants data) as [|c cs] eqn:E.
      * eexists. split; [reflexivity|]. split.
        -- intros n [H|[]]. discriminate.
        -- intros k c [H|[]]. discriminate.
      * assert (Hl : c :: cs <> []) by discriminate.
        assert (Hlen : 0 < length (c :: cs)) by (simpl; lia).
        revert Hl Hlen. generalize (c :: cs). clear c cs E. intros l Hl Hlen.
        rewrite render_cards_min by exact Hl.
        eexists. split; [reflexivity|]. split.
        -- intros n Hin.
           apply in_app_or in Hin as [[H|[H|[]]]|Hin]; try discriminate.
           apply in_app_or in Hin as [Hin|[H|[H|[]]]]; try discriminate.
           ++ exfalso. revert Hin. generalize 0.
              induction l as [|a l IHl]; cbn [cards_from In]; [tauto|].
              intros i [H|H]; [discriminate|].
              destruct l as [|b l]; [destruct H|].
              apply (IHl ltac:(discriminate) ltac:(simpl; lia) _ H).
           ++ injection H as <-. split; [exact Hlen|].
              rewrite !map_app, !count_occ_app, cards_from_count.
              simpl. lia.
        -- intros k c0 Hin. exists (Nat.min (length l) 2).
           split; [simpl; auto|].
           apply in_app_or in Hin as [[H|[H|[]]]|Hin]; try discriminate.
           apply in_app_or in Hin as [Hin|[H|[H|[]]]]; try discriminate.
           apply cards_from_column in Hin as [Hk H1].
           destruct l as [|a [|b l]]; [simpl in Hlen; lia | | simpl length; lia].
           rewrite (H1 eq_refl). simpl. lia.
    + eexists. split; [reflexivity|]. split.
      * intros n [H|[]]. discriminate.
      * intros k c [H|[]]. discriminate.
  - destruct (contains "No consultants found" text);
      [|destruct (contains "?" text)];
      (eexists; split; [reflexivity|]; split;
       [intros n Hin | intros k c Hin]; simpl in Hin;
       repeat (destruct Hin as [Hin|Hin]; try discriminate); destruct Hin).
Qed.

(** X9.  [format_assistant_response] never fails: [cols[i % 2]] is always
    within the [min(len(consultants), 2)] columns.  When it shows a total,
    the total is positive and equals the number of cards on the page, and
    every card sits in a column that exists. *)
Theorem format_assistant_response_in_bounds (text : string) :
  exists out,
    format_assistant_response text = Some out
    /\ (forall n, In (StInfoTotal n) out ->
          0 < n /\ count_occ bool_dec (map is_card out) true = n)
    /\ (forall k c, In (StCard k c) out ->
          exists ncols, In (StColumns ncols) out /\ k < ncols).
Proof. exact (format_assistant_response_cases text). Qed.

Lemma has_char_join c sep (l : list string) :
  has_char c sep = false ->
  Forall (fun x => has_char c x = false) l ->
  has_char c (join sep l) = false.
Proof.
  intros Hsep. induction l as [|x [|y l] IH]; intros Hall; [reflexivity| |].
  - now apply Forall_cons in Hall as [Hx _].
  - apply Forall_cons in Hall as [Hx Hall].
    change (join sep (x :: y :: l)) with (x ++ sep ++ join sep (y :: l)).
    rewrite !has_char_app, Hx, Hsep, (IH Hall). reflexivity.
Qed.

Lemma plain_entry_parts c :
  plain_entry c = true ->
  plain (fst c) = true /\ has_char "-"%char (fst c) = false
  /\ startswith "Dr." (fst c) = false /\ plain (snd c) = true.
Proof.
  unfold plain_entry, plain_name. intros H.
  apply andb_prop in H as [H Hs]. apply andb_prop in H as [H Hdr].
  apply andb_prop in H as [Hp Hd].
  repeat split; try assumption; now apply negb_true_iff.
Qed.

Lemma plain_parts s :
  plain s = true ->
  has_char ","%char s = false /\ has_char "]"%char s = false
  /\ has_char "010"%char s = false.
Proof.
  unfold plain. intros H. repeat (apply andb_prop in H as [H ?]).
  repeat split; now apply negb_true_iff.
Qed.

Lemma body_has_char ch c :
  has_char ch " - " = false ->
  has_char ch (fst c) = false -> has_char ch (snd c) = false ->
  has_char ch (body c) = false.
Proof. intros H0 H1 H2. unfold body. now rewrite !has_char_app, H0, H1, H2. Qed.

(** The joined listing, cut where [split(', Dr. ')] cuts it. *)
Lemma listing_data c (cs : list (string * string)) :
  join ", " (map listed (c :: cs))
  = join ", Dr. " (("Dr. " ++ body c) :: map body cs).
Proof.
  revert c. induction cs as [|c' cs IH]; intros c; [reflexivity|].
  change (join ", " (map listed (c :: c' :: cs)))
    with (listed c ++ ", " ++ join ", " (map listed (c' :: cs))).
  rewrite IH.
  change (join ", Dr. " (("Dr. " ++ body c) :: map body (c' :: cs)))
    with (("Dr. " ++ body c) ++ ", Dr. " ++ join ", Dr. " (map body (c' :: cs))).
  change (map body (c' :: cs)) with (body c' :: map body cs).
  destruct cs as [|c'' cs].
  - reflexivity.
  - change (join ", Dr. " (("Dr. " ++ body c') :: map body (c'' :: cs)))
      with (("Dr. " ++ body c') ++ ", Dr. " ++ join ", Dr. " (map body (c'' :: cs))).
    change (join ", Dr. " (body c' :: map body (c'' :: cs)))
      with (body c' ++ ", Dr. " ++ join ", Dr. " (map body (c'' :: cs))).
    unfold listed, body. rewrite !app_assoc_str. reflexivity.
Qed.

Lemma parse_entry_body i c :
  plain_entry c = true -> parse_entry (S i) (body c) = Some (card_of c).
Proof.
  intros H. apply plain_entry_parts in H as (_ & Hd & Hn & _).
  unfold parse_entry, body. cbn [Nat.eqb andb].
  now rewrite (partition_dash _ _ Hd), Hn.
Qed.

Lemma parse_entry_first c :
  plain_entry c = true -> parse_entry 0 ("Dr. " ++ body c) = Some (card_of c).
Proof.
  intros H. apply plain_entry_parts in H as (_ & Hd & Hn & _).
  unfold parse_entry. unfold startswith at 1.
  rewrite (prefix_app "Dr. " (body c)).
  change ((0 =? 0)%nat && true) with true. cbn iota.
  change 4 with (String.length "Dr. ").
  rewrite (drop_app "Dr. " (body c)). unfold body.
  now rewrite (partition_dash _ _ Hd), Hn.
Qed.

Lemma parse_entries_bodies i (cs : list (string * string)) :
  forallb plain_entry cs = true ->
  parse_entries (S i) (map body cs) = map card_of cs.
Proof.
  revert i. induction cs as [|c cs IH]; intros i H; [reflexivity|].
  simpl in H. apply andb_prop in H as [Hc H].
  cbn [map parse_entries]. now rewrite (parse_entry_body i c Hc), IH.
Qed.

(** X10.  Round trip of the listing: when the response starts with
    "Found consultants: [Dr. n1 - s1, Dr. n2 - s2, ...]" and the names and
    specialties hold no comma, closing bracket or newline (a name moreover
    no hyphen, and it does not start with "Dr." itself), the page shows one
    card per listed consultant, in order, named "Dr. n" with specialty [s],
    alternating between the columns, and the right total, whatever text
    follows the bracket. *)
Theorem listing_round_trip (cs : list (string * string)) (tail : string) :
  cs <> [] ->
  forallb plain_entry cs = true ->
  format_assistant_response (listing cs ++ tail)
  = Some ([StMarkdown FoundHeading; StColumns (Nat.min (length cs) 2)]
          ++ cards_from 0 (map card_of cs)
          ++ [StInfoTotal (length cs); StMarkdown NextSteps])%list.
Proof.
  intros Hne Hplain.
  destruct cs as [|c cs]; [congruence|]. clear Hne.
  assert (Hall : Forall (fun c => plain_entry c = true) (c :: cs))
    by (apply Forall_forall; intros x Hx;
        now apply (proj1 (forallb_forall _ _) Hplain x), list_elem_of_In).
  assert (Hdata : forall ch, has_char ch ", " = false -> has_char ch "Dr. " = false ->
            has_char ch " - " = false ->
            (forall s, plain s = true -> has_char ch s = false) ->
            has_char ch (join ", " (map listed (c :: cs))) = false).
  { intros ch H1 H2 H3 Hp. apply has_char_join; [exact H1|].
    apply Forall_map. eapply Forall_impl; [exact Hall|].
    intros x Hx. apply plain_entry_parts in Hx as (Hf & _ & _ & Hs).
    unfold listed. rewrite has_char_app, H2.
    now apply (body_has_char ch x H3); apply Hp. }
  unfold format_assistant_response, listing.
  rewrite !app_assoc_str.
  assert (Hc : contains "Found consultants:"
                 ("Found consultants: [" ++ join ", " (map listed (c :: cs)) ++ "]" ++ tail)
               = true) by (apply contains_prefix; reflexivity).
  rewrite Hc, search_listing_bracket.
  2: { apply Hdata; try reflexivity. intros s Hs. now apply plain_parts in Hs. }
  2: { apply Hdata; try reflexivity. intros s Hs. now apply plain_parts in Hs. }
  unfold parse_consultants. rewrite listing_data, split_join.
  2: discriminate.
  2: { simpl in Hplain. apply andb_prop in Hplain as [Hc0 Hrest].
       pose proof Hc0 as Hc0'.
       apply plain_entry_parts in Hc0 as (Hf & _ & _ & Hs).
       apply plain_parts in Hf as (Hf & _). apply plain_parts in Hs as (Hs & _).
       constructor.
       - rewrite has_char_app.
         now rewrite (body_has_char ","%char c eq_refl Hf Hs).
       - apply Forall_map. apply Forall_cons in Hall as [_ Hall].
         eapply Forall_impl; [exact Hall|]. intros x Hx.
         apply plain_entry_parts in Hx as (Hxf & _ & _ & Hxs).
         apply plain_parts in Hxf as (Hxf & _). apply plain_parts in Hxs as (Hxs & _).
         now apply (body_has_char ","%char x eq_refl). }
  simpl in Hplain. apply andb_prop in Hplain as [Hc0 Hrest].
  cbn [parse_entries]. rewrite (parse_entry_first c Hc0), (parse_entries_bodies 0 cs Hrest).
  cbv zeta. cbn [map].
  rewrite render_cards_min by discriminate.
  cbn [length]. now rewrite length_map.
Qed.

Lemma listing_round_trip_witness :
  format_assistant_response
    (listing [("Perera", "Cardiology"); ("N. Silva", "Heart Specialist")]
     ++ " Would you like more details?")
  = Some [StMarkdown FoundHeading; StColumns 2;
          StCard 0 {| name := "Dr. Perera"; specialty := "Cardiology" |};
          StCard 1 {| name := "Dr. N. Silva"; specialty := "Heart Specialist" |};
          StInfoTotal 2; StMarkdown NextSteps].
Proof.
  apply (listing_round_trip [("Perera", "Cardiology"); ("N. Silva", "Heart Specialist")]
           " Would you like more details?"); [discriminate | reflexivity].
Defined.

(** X11.  A listing without the separator [", Dr. "] gives at most one
    card: entries that do not start with "Dr. " are not told apart. *)
Theorem listing_without_separator_one_card (consultant_data : string) :
  contains ", Dr. " consultant_data = false ->
  length (parse_consultants consultant_data) <= 1.
Proof.
  intros H. unfold parse_consultants. rewrite (split_absent _ _ H).
  cbn [parse_entries]. destruct (parse_entry 0 consultant_data); simpl; lia.
Qed.

Lemma listing_without_separator_one_card_witness :
  contains ", Dr. " "Name1 - Specialty1, Name2 - Specialty2" = false
  /\ length (parse_consultants "Name1 - Specialty1, Name2 - Specialty2") <= 1.
Proof.
  split; [reflexivity|].
  apply (listing_without_separator_one_card "Name1 - Specialty1, Name2 - Specialty2").
  reflexivity.
Defined.

(** The response format of the query agent's instructions, shown: the two
    consultants end up on one card. *)
Example instructed_format_one_card :
  format_assistant_response
    "Found consultants: [Name1 - Specialty1, Name2 - Specialty2]"
  = Some [StMarkdown FoundHeading; StColumns 1;
          StCard 0 {| name := "Dr. Name1";
                      specialty := "Specialty1, Name2 - Specialty2" |};
          StInfoTotal 1; StMarkdown NextSteps].
Proof. vm_compute. reflexivity. Qed.

End Presentation.

(** ** Invariants of the state under the control operators *)

Section Preserves.

Context (I : State -> Prop).

Lemma preserves_ret {A} (a : A) : preserves I (ret a).
Proof. intros st H. exact H. Qed.

Lemma preserves_raise {A} e : preserves I (@raise A e).
Proof. intros st H. exact H. Qed.

Lemma preserves_lift {A} (r : result A) : preserves I (lift r).
Proof. intros st H. exact H. Qed.

Lemma preserves_read_history : preserves I read_history.
Proof. intros st H. exact H. Qed.

Lemma preserves_read_session : preserves I read_session.
Proof. intros st H. exact H. Qed.

Lemma preserves_bind {A B} (m : M A) (k : A -> M B) :
  preserves I m -> (forall a, preserves I (k a)) -> preserves I (bind m k).
Proof.
  intros Hm Hk st H. unfold bind. specialize (Hm st H).
  destruct (m st) as [st' [a|e]]; simpl in *; [|exact Hm].
  now apply Hk.
Qed.

Lemma preserves_try_except {A} (body : M A) handler :
  preserves I body -> (forall e, preserves I (handler e)) ->
  preserves I (try_except body handler).
Proof.
  intros Hb Hh st H. unfold try_except. specialize (Hb st H).
  destruct (body st) as [st' [a|e]]; simpl in *; [exact Hb|].
  destruct (is_Exception e); simpl; [|exact Hb]. now apply Hh.
Qed.

Lemma preserves_try_except_class {A} cls (body handler : M A) :
  preserves I body -> preserves I handler ->
  preserves I (try_except_class cls body handler).
Proof.
  intros Hb Hh st H. unfold try_except_class. specialize (Hb st H).
  destruct (body st) as [st' [a|[c m|b]]]; simpl in *; try exact Hb.
  destruct (decide (c = cls)); simpl; [|exact Hb]. now apply Hh.
Qed.

Lemma preserves_try_finally {A} (body : M A) fin :
  preserves I body -> preserves I fin -> preserves I (try_finally body fin).
Proof.
  intros Hb Hf st H. rewrite try_finally_state. now apply Hf, Hb.
Qed.

Lemma preserves_wait_for {A} (m : M A) : preserves I m -> preserves I (wait_for m).
Proof.
  intros Hm st H. unfold wait_for. specialize (Hm st H).
  destruct (m st) as [st' [a|[c msg|[|]]]]; exact Hm.
Qed.

Lemma preserves_mapM {A B} (g : A -> M B) l :
  (forall x, preserves I (g x)) -> preserves I (mapM g l).
Proof.
  intros Hg. induction l as [|x l IH]; simpl.
  - apply preserves_ret.
  - apply preserves_bind; [apply Hg|]. intros y.
    apply preserves_bind; [exact IH|]. intros ys. apply preserves_ret.
Qed.

End Preserves.

Ltac preserves_step :=
  match goal with
  | |- preserves _ (ret _) => apply preserves_ret
  | |- preserves _ (raise _) => apply preserves_raise
  | |- preserves _ (lift _) => apply preserves_lift
  | |- preserves _ read_history => apply preserves_read_history
  | |- preserves _ read_session => apply preserves_read_session
  | |- preserves _ (mapM _ _) => apply preserves_mapM; intros ?
  | |- preserves _ (wait_for _) => apply preserves_wait_for
  | |- preserves _ (try_except_class _ _ _) => apply preserves_try_except_class
  | |- preserves _ (try_finally _ _) => apply preserves_try_finally
  | |- preserves _ (try_except _ _) => apply preserves_try_except; [|intros ?]
  | |- preserves _ (bind _ _) => apply preserves_bind; [|intros ?]
  | |- preserves _ (match ?x with _ => _ end) => destruct x
  end.

(** The trace only grows. *)
Lemma grows_preserves {A} (m : M A) :
  (forall t0, preserves (fun st => exists evs, trace st = (t0 ++ evs)%list) m) ->
  grows m.
Proof.
  intros H st. apply (H (trace st) st). exists []. now rewrite app_nil_r.
Qed.

Lemma preserves_prefix_emit t0 ev :
  preserves (fun st => exists evs, trace st = (t0 ++ evs)%list) (emit ev).
Proof.
  intros st [evs H]. exists (evs ++ [ev])%list. simpl. rewrite H.
  now rewrite app_assoc.
Qed.

Lemma preserves_prefix_write_session t0 s :
  preserves (fun st => exists evs, trace st = (t0 ++ evs)%list) (write_session s).
Proof. intros st H. exact H. Qed.

Ltac grows_tac :=
  apply grows_preserves; intros ?; unfold_program; unfold async_with;
  repeat first [ apply preserves_prefix_emit
               | apply preserves_prefix_write_session
               | preserves_step ].

Lemma process_chat_message_grows (w : World) msg : grows (process_chat_message w msg).
Proof. grows_tac. Qed.

Lemma round_trip_grows (w : World) params hp msg text :
  grows (round_trip w params hp msg text).
Proof. grows_tac. Qed.

Lemma teardown_grows (w : World) : grows (teardown w).
Proof. grows_tac. Qed.

Lemma openai_model_grows (w : World) site : grows (openai_model w site).
Proof. grows_tac. Qed.

(** ** Creating the agents *)

Lemma tally_app P st evs st' :
  trace st' = (trace st ++ evs)%list -> tally P st' = tally P st + count_ev P evs.
Proof. intros H. unfold tally. now rewrite H, count_ev_app. Qed.

(** X1.  The model constructor is called under the next spelling only after
    the spelling before raised [TypeError]; the outcome of [openai_model] is
    the outcome of the last call made.  So one to three calls are made, and a
    failure other than [TypeError] is not retried. *)
Theorem constructor_probing (w : World) site st :
  snd (openai_model w site st)
  = (if is_type_error (oracle w (OpenAIChat site ByModel))
     then if is_type_error (oracle w (OpenAIChat site ByModelName))
          then oracle w (OpenAIChat site Positional)
          else oracle w (OpenAIChat site ByModelName)
     else oracle w (OpenAIChat site ByModel))
  /\ tally is_constructor (fst (openai_model w site st))
     = tally is_constructor st
       + (if is_type_error (oracle w (OpenAIChat site ByModel))
          then if is_type_error (oracle w (OpenAIChat site ByModelName))
               then 3 else 2
          else 1).
Proof.
  unfold openai_model, try_except_class, do, bind, lift, emit, tally. simpl.
  assert (H1 : forall (t : list event) c,
             count_ev is_constructor (t ++ [EvCall (OpenAIChat site c)])
             = S (count_ev is_constructor t))
    by (intros t c; rewrite count_ev_app; unfold count_ev; simpl; lia).
  destruct (oracle w (OpenAIChat site ByModel)) as [v|[[] m|b]]; simpl;
    try (rewrite !H1; split; [reflexivity | lia]).
  all: destruct (oracle w (OpenAIChat site ByModelName)) as [v2|[[] m2|b2]]; simpl;
    try (rewrite !H1; split; [reflexivity | lia]).
  all: destruct (oracle w (OpenAIChat site Positional)) as [v3|e3]; simpl;
    rewrite !H1; split; (reflexivity || lia).
Qed.




(** ** The shape of a result *)

Ltac shape_step :=
  match goal with
  | |- returns _ (ret (mk_result _ _)) => apply returns_ret; unfold two_keys; eauto
  | |- returns _ (raise _) => apply returns_raise
  | |- returns _ (wait_for _) => apply returns_wait_for
  | |- returns _ (try_finally _ _) => apply returns_try_finally
  | |- returns _ (try_except _ _) => apply returns_try_except; [|intros ?]
  | |- returns _ (async_with _ _ _) => apply returns_async_with; intros ?
  | |- returns _ (bind _ _) => apply returns_bind; intros ?
  | |- returns _ (match ?x with _ => _ end) => destruct x
  end.

Lemma process_chat_message_shape (w : World) msg :
  returns two_keys (process_chat_message w msg).
Proof.
  unfold process_chat_message, query_database, round_trip, query_error.
  repeat shape_step.
Qed.

Lemma process_user_message_async_shape (w : World) msg :
  returns two_keys (process_user_message_async w msg).
Proof.
  unfold process_user_message_async.
  destruct (negb (PyStr.truthy (PyStr.strip msg))).
  - shape_step.
  - apply returns_try_except.
    + apply returns_wait_for, process_chat_message_shape.
    + intros e. destruct e as [[] m|b]; shape_step.
Qed.

(** X3.  A result returned by [process_chat_message] or by the hosted
    wrapper is a dict with exactly the keys "response" and "status": the
    callers' [result['response']] finds its key, and nothing else is in the
    dict. *)
Theorem returned_result_has_response (w : World) msg st st' r :
  process_chat_message w msg st = (st', Val r)
  \/ process_user_message_async w msg st = (st', Val r) ->
  exists text s,
    r = mk_result text s
    /\ r !! "response" = Some text
    /\ dom r = ({["response"; "status"]} : gset string).
Proof.
  intros H.
  assert (Hs : two_keys r).
  { destruct H as [H|H].
    - exact (process_chat_message_shape w msg st st' r H).
    - exact (process_user_message_async_shape w msg st st' r H). }
  destruct Hs as (text & s & ->). exists text, s.
  split; [reflexivity|]. split; [apply mk_result_response|].
  unfold mk_result. rewrite !dom_insert_L, dom_empty_L. set_solver.
Qed.

Lemma returned_result_has_response_witness :
  exists text s,
    mk_result "Found consultants: [Dr. Perera - Cardiology]" "success" = mk_result text s
    /\ mk_result "Found consultants: [Dr. Perera - Cardiology]" "success" !! "response"
       = Some text
    /\ dom (mk_result "Found consultants: [Dr. Perera - Cardiology]" "success")
       = ({["response"; "status"]} : gset string).
Proof.
  eapply (returned_result_has_response Samples.w_found Samples.msg_chest
            (init_state Samples.one_turn)).
  left. vm_compute. reflexivity.
Defined.

(** ** The missing-variables message *)

(** X4.  The missing-variables message names a required variable exactly
    when that variable is absent or set to the empty string: every such
    variable is named, and no variable that has a value is. *)
Theorem missing_message_names_exactly (w : World) msg st var :
  missing_variables w <> [] ->
  In var required_variables ->
  exists resp,
    process_chat_message w msg st = (entered w st, Val (mk_result resp "error"))
    /\ (PyStr.contains var resp = true
        <-> environ w !! var = None \/ environ w !! var = Some EmptyString).
Proof.
  intros Hne Hin.
  exists ("Error: Missing environment variables: "
          ++ PyStr.join ", " (missing_variables w)).
  split.
  - unfold process_chat_message, bind. rewrite enter_run.
    destruct (missing_variables w); [congruence | reflexivity].
  - assert (Hu : forall v, unset w v = true
                 <-> environ w !! v = None \/ environ w !! v = Some EmptyString).
    { intros v. unfold unset, getenv.
      destruct (environ w !! v) as [[|c s]|]; simpl; split; intros H;
        try discriminate; auto; destruct H; discriminate. }
    rewrite <- Hu. clear Hu.
    revert Hne. unfold missing_variables, required_variables. simpl.
    destruct (unset w "DB_HOST") eqn:E1; destruct (unset w "DB_USER") eqn:E2;
      destruct (unset w "DB_PASSWORD") eqn:E3; destruct (unset w "DB_NAME") eqn:E4;
      intros Hne; try congruence;
      simpl in Hin; destruct Hin as [<-|[<-|[<-|[<-|[]]]]];
      (rewrite ?E1, ?E2, ?E3, ?E4; split; intros H;
       [ try reflexivity; vm_compute in H; discriminate
       | try discriminate; vm_compute; reflexivity ]).
Qed.

Lemma missing_message_names_exactly_witness :
  missing_variables Samples.w_no_host <> []
  /\ exists resp,
       process_chat_message Samples.w_no_host Samples.msg_chest (init_state [])
       = (entered Samples.w_no_host (init_state []), Val (mk_result resp "error"))
       /\ (PyStr.contains "DB_USER" resp = true
           <-> environ Samples.w_no_host !! "DB_USER" = None
               \/ environ Samples.w_no_host !! "DB_USER" = Some EmptyString).
Proof.
  split; [discriminate|].
  apply (missing_message_names_exactly Samples.w_no_host Samples.msg_chest
           (init_state []) "DB_USER"); [discriminate | simpl; auto].
Defined.

(** ** The history in the prompt *)

Lemma render_turn_run t st :
  render_turn t st
  = (st, match t !! "user", t !! "assistant" with
         | Some u, Some a => Val (turn_line u a)
         | None, _ => Raise (Exc KeyError "'user'")
         | Some _, None => Raise (Exc KeyError "'assistant'")
         end).
Proof.
  unfold render_turn, getitem, bind, ret, raise.
  destruct (t !! "user"); [|reflexivity].
  destruct (t !! "assistant"); reflexivity.
Qed.

Lemma mapM_render_val h st st' lines :
  mapM render_turn h st = (st', Val lines) ->
  st' = st /\ Forall2 rendered h lines.
Proof.
  revert st st' lines. induction h as [|t h IH]; intros st st' lines.
  - intros [= <- <-]. split; [reflexivity | constructor].
  - cbn [mapM]. unfold bind at 1. rewrite render_turn_run.
    destruct (t !! "user") as [u|] eqn:Eu; [|discriminate].
    destruct (t !! "assistant") as [a|] eqn:Ea; [|discriminate].
    unfold bind at 1.
    destruct (mapM render_turn h st) as [s1 [ls|e]] eqn:E; [|discriminate].
    intros [= <- <-]. destruct (IH _ _ _ E) as [-> HF].
    split; [reflexivity|]. constructor; [|exact HF].
    exists u, a. auto.
Qed.

Lemma mapM_render_missing h st :
  Exists (fun t => ~ has_keys t) h ->
  exists k, mapM render_turn h st = (st, Raise (Exc KeyError k)).
Proof.
  induction h as [|t h IH]; intros H; [inversion H|].
  cbn [mapM]. unfold bind at 1. rewrite render_turn_run.
  destruct (t !! "user") as [u|] eqn:Eu; [|eauto].
  destruct (t !! "assistant") as [a|] eqn:Ea; [|eauto].
  unfold bind at 1.
  apply Exists_cons in H as [H|H].
  - exfalso. apply H. split; rewrite ?Eu, ?Ea; eauto.
  - destruct (IH H) as [k ->]. eauto.
Qed.

(** X6.  Whenever the analysis step returns, every turn of the history held
    both keys, and the classifier was run, as the last library call of the
    step, on the prompt that embeds the turns in their order, each as
    "User: ..." / "Assistant: ..." lines joined by newlines, followed by the
    current message. *)
Theorem prompt_embeds_history (w : World) msg st st1 hp text :
  analyze_symptoms w msg st = (st1, Val (hp, text)) ->
  exists lines pre,
    Forall2 rendered (history st) lines
    /\ hp = PyStr.join PyStr.nl lines
    /\ trace st1 = (pre ++ [EvCall (Arun Analyzer (symptom_prompt hp msg))])%list.
Proof.
  unfold analyze_symptoms. intros H.
  assert (K0 : keeps history (log Info "Analyzing message for symptoms...")) by frame.
  assert (K1 : keeps history (create_symptom_analyzer w)) by frame.
  unfold bind at 1 in H. specialize (K0 st).
  destruct (log Info "Analyzing message for symptoms..." st) as [s0 [u0|e0]];
    [|discriminate].
  unfold bind at 1 in H. specialize (K1 s0).
  destruct (create_symptom_analyzer w s0) as [s1 [u|e]]; [|discriminate].
  simpl in K0, K1.
  unfold bind at 1 in H. unfold read_history in H.
  unfold bind at 1 in H.
  destruct (mapM render_turn (history s1) s1) as [s2 [lines|e]] eqn:Em; [|discriminate].
  apply mapM_render_val in Em as [-> HF].
  unfold bind at 1 in H.
  match type of H with
  | (match do w ?c ?s with _ => _ end) = _ =>
      assert (Ht : trace (fst (do w c s)) = (trace s ++ [EvCall c])%list) by reflexivity;
      destruct (do w c s) as [s5 [v|e]]; [|discriminate]
  end.
  simpl in Ht. unfold bind, content_strip, ret, raise in H.
  destruct v as [raw|]; [|discriminate].
  injection H as <- <- _.
  exists lines, (trace s1). rewrite <- K0, <- K1. auto.
Qed.

Lemma prompt_embeds_history_witness :
  exists lines pre,
    Forall2 rendered (history (init_state Samples.one_turn)) lines
    /\ "User: I have chest pain" ++ PyStr.nl
       ++ "Assistant: Found consultants: [Dr. Perera - Cardiology]"
       = PyStr.join PyStr.nl lines
    /\ trace (fst (analyze_symptoms Samples.w_found "and headaches"
                     (init_state Samples.one_turn)))
       = (pre ++ [EvCall (Arun Analyzer
                    (symptom_prompt
                       ("User: I have chest pain" ++ PyStr.nl
                        ++ "Assistant: Found consultants: [Dr. Perera - Cardiology]")
                       "and headaches"))])%list.
Proof.
  eapply (prompt_embeds_history Samples.w_found "and headaches"
            (init_state Samples.one_turn)).
  vm_compute. reflexivity.
Defined.

(** X7.  A turn of the history without a "user" or an "assistant" key makes
    [process_chat_message] raise instead of returning a result (credentials
    present), and the classifier is never run. *)
Theorem missing_key_raises (w : World) msg st :
  missing_variables w = [] ->
  Exists (fun t => ~ has_keys t) (history st) ->
  exists e,
    snd (process_chat_message w msg st) = Raise e
    /\ tally is_classifier_run (fst (process_chat_message w msg st))
       = tally is_classifier_run st.
Proof.
  intros Hmiss Hbad.
  assert (Han : exists s e, analyze_symptoms w msg (entered w st) = (s, Raise e)
                            /\ tally is_classifier_run s = tally is_classifier_run st).
  { unfold analyze_symptoms.
    assert (T0 : keeps (tally is_classifier_run)
                   (log Info "Analyzing message for symptoms...")) by frame.
    assert (K0 : keeps history (log Info "Analyzing message for symptoms...")) by frame.
    assert (K1 : keeps history (create_symptom_analyzer w)) by frame.
    assert (T1 : keeps (tally is_classifier_run) (create_symptom_analyzer w)) by frame.
    assert (Te : tally is_classifier_run (entered w st) = tally is_classifier_run st)
      by (apply entered_tally; reflexivity).
    assert (Ke : history (entered w st) = history st) by reflexivity.
    unfold bind at 1. specialize (T0 (entered w st)). specialize (K0 (entered w st)).
    destruct (log Info "Analyzing message for symptoms..." (entered w st))
      as [s0 [u0|e0]]; simpl in T0, K0;
      [|exists s0, e0; split; [reflexivity | congruence]].
    unfold bind at 1. specialize (T1 s0). specialize (K1 s0).
    destruct (create_symptom_analyzer w s0) as [s1 [u|e]]; simpl in T1, K1;
      [|exists s1, e; split; [reflexivity | congruence]].
    unfold bind at 1. unfold read_history. unfold bind at 1.
    destruct (mapM_render_missing (history s1) s1) as [k ->].
    { replace (history s1) with (history st) by (simpl in *; congruence).
      exact Hbad. }
    exists s1, (Exc KeyError k). split; [reflexivity | congruence]. }
  destruct Han as (s & e & Han & Ht).
  exists e. rewrite (analysis_failure_propagates w msg st s e Hmiss Han).
  split; [reflexivity | exact Ht].
Qed.

Lemma missing_key_raises_witness :
  missing_variables Samples.w_found = []
  /\ exists e,
       snd (process_chat_message Samples.w_found Samples.msg_chest
              (init_state [ <["user" := VStr "hello"]> ∅ ])) = Raise e
       /\ tally is_classifier_run
            (fst (process_chat_message Samples.w_found Samples.msg_chest
                    (init_state [ <["user" := VStr "hello"]> ∅ ])))
          = tally is_classifier_run (init_state [ <["user" := VStr "hello"]> ∅ ]).
Proof.
  split; [reflexivity|].
  apply (missing_key_raises Samples.w_found Samples.msg_chest
           (init_state [ <["user" := VStr "hello"]> ∅ ])); [reflexivity|].
  apply Exists_cons_hd. intros [_ [a Ha]]. vm_compute in Ha. discriminate.
Defined.

(** ** Status and text *)

Lemma status_fits_error x y :
  String.prefix "Error: " x = true -> status_fits (mk_result (x ++ y) "error").
Proof.
  intros H. exists (x ++ y), "error". split; [reflexivity|]. split; [discriminate|].
  intros _. revert H. generalize "Error: ". intros p. revert x.
  induction p as [|c p IH]; intros x H; [now destruct (x ++ y)|].
  destruct x as [|d x]; [discriminate|].
  rewrite app_cons_str, prefix_cons in *.
  destruct (ascii_dec c d); [now apply IH | discriminate].
Qed.

Lemma process_chat_message_status_fits (w : World) msg :
  returns status_fits (process_chat_message w msg).
Proof.
  unfold process_chat_message.
  apply returns_bind; intros _.
  destruct (missing_variables w).
  - apply returns_bind; intros [hp rc].
    destruct (needs_clarification rc) eqn:Hnc.
    + apply returns_ret. eexists _, _. split; [reflexivity|].
      split; [|discriminate]. intros _.
      unfold needs_clarification in Hnc.
      destruct rc as [|c rc]; [reflexivity|]. exact Hnc.
    + unfold query_database, round_trip, query_error.
      apply returns_bind; intros params.
      apply returns_try_finally, returns_try_except.
      * apply returns_async_with; intros _.
        apply returns_async_with; intros _.
        do 5 (apply returns_bind; intros ?).
        apply returns_ret. eexists _, _. split; [reflexivity|].
        split; discriminate.
      * intros e. apply returns_bind; intros _.
        apply returns_ret. now apply status_fits_error.
  - apply returns_ret. now apply status_fits_error.
Qed.

(** X8.  In a result of [process_chat_message] the status tells what the
    text looks like: a "clarification" always carries a question mark (the
    classifier's question or the fallback question), and an "error" always
    starts with "Error: ". *)
Theorem status_tells_text (w : World) msg st st' r :
  process_chat_message w msg st = (st', Val r) ->
  exists text s,
    r = mk_result text s
    /\ (s = "clarification" -> PyStr.contains "?" text = true)
    /\ (s = "error" -> String.prefix "Error: " text = true).
Proof. exact (process_chat_message_status_fits w msg st st' r). Qed.

Lemma status_tells_text_witness :
  exists text s,
    mk_result "Could you describe your symptoms?" "clarification" = mk_result text s
    /\ (s = "clarification" -> PyStr.contains "?" text = true)
    /\ (s = "error" -> String.prefix "Error: " text = true).
Proof.
  eapply (status_tells_text Samples.w_blank Samples.msg_chest (init_state [])).
  vm_compute. reflexivity.
Defined.

(** ** What the subprocess is spawned with *)

Lemma spawns_complete_emit (w : World) t0 ev :
  (forall p, ev = EvCall (StdioClientEnter p) ->
             p = stdio_server_parameters w /\ missing_variables w = []) ->
  preserves (spawns_complete w t0) (emit ev).
Proof.
  intros Hev st H p Hin. unfold emit in Hin. cbn [fst trace] in Hin.
  apply in_app_or in Hin as [Hin|[Heq|[]]].
  - exact (H p Hin).
  - right. apply Hev. exact Heq.
Qed.

Lemma spawns_complete_write_session (w : World) t0 s :
  preserves (spawns_complete w t0) (write_session s).
Proof. intros st H. exact H. Qed.

Ltac spawns_tac :=
  unfold_program; unfold async_with; cbv zeta;
  repeat first [ apply spawns_complete_write_session
               | apply spawns_complete_emit; intros ? ?; (discriminate || (split; congruence))
               | preserves_step ].

Lemma process_chat_message_spawns (w : World) msg t0 :
  preserves (spawns_complete w t0) (process_chat_message w msg).
Proof.
  unfold process_chat_message.
  apply preserves_bind; [spawns_tac|]. intros _.
  destruct (missing_variables w) eqn:Hmiss; [|spawns_tac].
  apply preserves_bind; [spawns_tac|]. intros [hp rc].
  destruct (needs_clarification rc); [spawns_tac|].
  unfold query_database. intros st H. unfold bind at 1. rewrite prepare_run.
  assert (Hp : spawns_complete w t0 (prepared w rc st)).
  { assert (Hk : preserves (spawns_complete w t0) (prepare w rc)) by spawns_tac.
    exact (Hk st H). }
  revert Hp. generalize (prepared w rc st). clear st H.
  change (preserves (spawns_complete w t0)
            (try_finally
               (try_except (round_trip w (stdio_server_parameters w) hp msg rc)
                  (query_error w))
               (teardown w))).
  spawns_tac.
Qed.

Lemma complete_environment (w : World) var :
  missing_variables w = [] -> In var required_variables ->
  exists v, getenv w var = Some v /\ v <> EmptyString.
Proof.
  intros Hmiss Hin.
  assert (Hu : unset w var = false).
  { destruct (unset w var) eqn:E; [|reflexivity].
    assert (Hm : In var (missing_variables w))
      by (apply List.filter_In; auto).
    rewrite Hmiss in Hm. destruct Hm. }
  unfold unset in Hu. destruct (getenv w var) as [v|]; [|discriminate].
  exists v. split; [reflexivity|]. intros ->. discriminate.
Qed.

(** X5.  Whenever [process_chat_message] spawns the database tool, the
    command is [uvx] and the arguments are [mcp-sql-server] followed by the
    four credentials under their flags, each read from the environment and
    none of them missing or empty. *)
Theorem spawn_carries_credentials (w : World) msg st p :
  In (EvCall (StdioClientEnter p)) (trace (fst (process_chat_message w msg st))) ->
  ~ In (EvCall (StdioClientEnter p)) (trace st) ->
  exists host user password database,
    environ w !! "DB_HOST" = Some host /\ host <> EmptyString
    /\ environ w !! "DB_USER" = Some user /\ user <> EmptyString
    /\ environ w !! "DB_PASSWORD" = Some password /\ password <> EmptyString
    /\ environ w !! "DB_NAME" = Some database /\ database <> EmptyString
    /\ sp_command p = "uvx"
    /\ sp_args p = [Some "mcp-sql-server";
                    Some "--db-host"; Some host;
                    Some "--db-user"; Some user;
                    Some "--db-password"; Some password;
                    Some "--db-database"; Some database].
Proof.
  intros Hin Hnew.
  assert (H0 : spawns_complete w (trace st) st) by (intros q Hq; now left).
  destruct (process_chat_message_spawns w msg (trace st) st H0 p Hin)
    as [Hold | [-> Hmiss]]; [contradiction|].
  destruct (complete_environment w "DB_HOST" Hmiss) as (h & Hh & Hh'); [simpl; auto|].
  destruct (complete_environment w "DB_USER" Hmiss) as (u & Hu & Hu'); [simpl; auto|].
  destruct (complete_environment w "DB_PASSWORD" Hmiss) as (pw & Hp & Hp'); [simpl; auto 6|].
  destruct (complete_environment w "DB_NAME" Hmiss) as (d & Hd & Hd'); [simpl; auto 6|].
  exists h, u, pw, d. unfold stdio_server_parameters. simpl. rewrite Hh, Hu, Hp, Hd.
  unfold getenv in *. repeat split; assumption.
Qed.

Lemma spawn_carries_credentials_witness :
  exists host user password database,
    environ Samples.w_found !! "DB_HOST" = Some host /\ host <> EmptyString
    /\ environ Samples.w_found !! "DB_USER" = Some user /\ user <> EmptyString
    /\ environ Samples.w_found !! "DB_PASSWORD" = Some password /\ password <> EmptyString
    /\ environ Samples.w_found !! "DB_NAME" = Some database /\ database <> EmptyString
    /\ sp_command (stdio_server_parameters Samples.w_found) = "uvx"
    /\ sp_args (stdio_server_parameters Samples.w_found)
       = [Some "mcp-sql-server";
          Some "--db-host"; Some host;
          Some "--db-user"; Some user;
          Some "--db-password"; Some password;
          Some "--db-database"; Some database].
Proof.
  apply (spawn_carries_credentials Samples.w_found Samples.msg_chest (init_state [])).
  - vm_compute. do 9 right. left. reflexivity.
  - intros [].
Defined.

(** ** The explicit close comes after the context manager *)

Lemma session_count_le st : session_count st <= 1.
Proof. unfold session_count. destruct (agent_session st); lia. Qed.

Lemma query_database_order (w : World) hp msg text st :
  exists evs1 evs2,
    trace (fst (query_database w hp msg text st)) = (trace st ++ evs1 ++ evs2)%list
    /\ count_ev is_session_close evs1 = 0
    /\ count_ev is_session_exit evs2 = 0
    /\ count_ev is_session_close evs2 <= count_ev is_session_exit evs1
    /\ count_ev is_session_exit evs1 <= 1.
Proof.
  unfold query_database. rewrite bind_state, prepare_run, try_finally_state.
  set (sp := prepared w text st).
  set (body := try_except (round_trip w (stdio_server_parameters w) hp msg text)
                 (query_error w)).
  assert (Hg0 : exists e0, trace sp = (trace st ++ e0)%list).
  { assert (Hg : grows (prepare w text)) by (grows_tac; cbv zeta; grows_tac).
    exact (Hg st). }
  assert (Hg1 : grows body) by (unfold body; grows_tac).
  destruct Hg0 as [e0 H0]. destruct (Hg1 sp) as [e1 H1].
  destruct (teardown_grows w (fst (body sp))) as [e2 H2].
  set (sm := fst (body sp)) in *.
  assert (Hc0 : tally is_session_close sp = tally is_session_close st)
    by (apply prepared_tally; reflexivity).
  assert (Hx0 : tally is_session_exit sp = tally is_session_exit st)
    by (apply prepared_tally; reflexivity).
  assert (Hc1 : tally is_session_close sm = tally is_session_close sp).
  { unfold sm, body.
    rewrite (try_except_obs (tally is_session_close)) by (intros e; frame).
    assert (Hr : keeps (tally is_session_close)
                   (round_trip w (stdio_server_parameters w) hp msg text)) by frame.
    apply Hr. }
  assert (Hx1 : tally is_session_exit sm = tally is_session_exit sp + session_count sm).
  { unfold sm, body, session_count.
    rewrite (try_except_obs (tally is_session_exit)) by apply query_error_no_session_exit.
    rewrite (try_except_obs agent_session) by apply query_error_keeps_session.
    exact (round_trip_session_balance w _ hp msg text sp (prepared_session w text st)). }
  pose proof (teardown_no_session_exit w sm) as Hx2.
  pose proof (teardown_close_count w sm) as Hc2.
  pose proof (session_count_le sm) as Hle.
  pose proof (tally_app is_session_close _ _ _ H0) as A0.
  pose proof (tally_app is_session_exit _ _ _ H0) as B0.
  pose proof (tally_app is_session_close _ _ _ H1) as A1.
  pose proof (tally_app is_session_exit _ _ _ H1) as B1.
  pose proof (tally_app is_session_close _ _ _ H2) as A2.
  pose proof (tally_app is_session_exit _ _ _ H2) as B2.
  exists (e0 ++ e1)%list, e2.
  rewrite H2, H1, H0, !count_ev_app, <- !app_assoc.
  split; [reflexivity|].
  destruct (session_has_close w); lia.
Qed.

(** X12.  In every run of [process_chat_message] the calls that leave the
    protocol session ([ClientSession.__aexit__]) all come before the calls
    of [session.close()] that [cleanup] makes, there is at most one of each,
    and [close] is only called when the session has been left: the explicit
    close always finds a session that its context manager already closed. *)
Theorem close_follows_exit (w : World) msg st :
  exists evs1 evs2,
    trace (fst (process_chat_message w msg st)) = (trace st ++ evs1 ++ evs2)%list
    /\ count_ev is_session_close evs1 = 0
    /\ count_ev is_session_exit evs2 = 0
    /\ count_ev is_session_close evs2 <= count_ev is_session_exit evs1
    /\ count_ev is_session_exit evs1 <= 1.
Proof.
  destruct (process_chat_message_grows w msg st) as [evs Hevs].
  assert (Hquiet :
    tally is_session_close (fst (process_chat_message w msg st)) = tally is_session_close st ->
    tally is_session_exit (fst (process_chat_message w msg st)) = tally is_session_exit st ->
    exists evs1 evs2,
      trace (fst (process_chat_message w msg st)) = (trace st ++ evs1 ++ evs2)%list
      /\ count_ev is_session_close evs1 = 0
      /\ count_ev is_session_exit evs2 = 0
      /\ count_ev is_session_close evs2 <= count_ev is_session_exit evs1
      /\ count_ev is_session_exit evs1 <= 1).
  { intros Hc Hx. exists evs, []. rewrite app_nil_r.
    pose proof (tally_app is_session_close _ _ _ Hevs).
    pose proof (tally_app is_session_exit _ _ _ Hevs).
    split; [exact Hevs|]. unfold count_ev at 2 3. simpl. lia. }
  assert (Ka : keeps (tally is_session_close) (analyze_symptoms w msg)) by frame.
  pose proof (analyze_symptoms_no_session_exit w msg) as Kb.
  specialize (Ka (entered w st)). specialize (Kb (entered w st)).
  rewrite entered_tally in Ka, Kb by reflexivity.
  destruct (missing_variables w) as [|v l] eqn:Hmiss.
  - destruct (analyze_symptoms w msg (entered w st)) as [s1 [[hp text]|e]] eqn:Han.
    + destruct (needs_clarification text) eqn:Hnc.
      * apply Hquiet; unfold process_chat_message, bind;
          rewrite enter_run, Hmiss, Han, Hnc; simpl; assumption.
      * rewrite (process_chat_message_query w msg st s1 hp text Hmiss Han Hnc).
        destruct (query_database_order w hp msg text s1) as (e1 & e2 & H & H1 & H2 & H3 & H4).
        assert (Hg : grows (analyze_symptoms w msg)) by grows_tac.
        destruct (Hg (entered w st)) as [ea Hea]. rewrite Han in Hea.
        cbn [fst] in Hea, Ka, Kb.
        assert (He : trace (entered w st)
                     = (trace st ++ [EvLog Info ("Platform: " ++ platform w
                          ++ ", Event loop policy: " ++ loop_policy w)])%list)
          by reflexivity.
        set (e := [EvLog Info ("Platform: " ++ platform w
                      ++ ", Event loop policy: " ++ loop_policy w)]) in *.
        pose proof (tally_app is_session_close (entered w st) ea s1 Hea) as A1.
        pose proof (tally_app is_session_exit (entered w st) ea s1 Hea) as B1.
        rewrite entered_tally in A1, B1 by reflexivity.
        exists (e ++ ea ++ e1)%list, e2.
        rewrite H, Hea, He, !count_ev_app, <- !app_assoc.
        split; [reflexivity|].
        assert (count_ev is_session_close e = 0) by reflexivity.
        assert (count_ev is_session_exit e = 0) by reflexivity.
        lia.
    + apply Hquiet; rewrite (analysis_failure_propagates w msg st s1 e Hmiss Han);
        simpl; assumption.
  - apply Hquiet; unfold process_chat_message, bind; rewrite enter_run, Hmiss; simpl;
      apply entered_tally; reflexivity.
Qed.

(** ** The command-line chat loop *)

Section ChatLoop.

Import DatabaseAgentPy.

Lemma chat_turn_history (w : World) msg st s' r :
  chat_turn w msg st = (s', r) ->
  (exists a, r = Val tt
             /\ history s' = (history st ++ [App.mk_turn (VStr msg) (VStr a)])%list)
  \/ (exists e, r = Raise e /\ history s' = history st).
Proof.
  unfold chat_turn. intros H.
  assert (K0 : forall m, keeps history (log Info m)) by (intros m; frame).
  pose proof (process_chat_message_keeps_history w msg) as K1.
  unfold bind at 1 in H. pose proof (K0 ("Processing message: " ++ msg) st) as H0.
  destruct (log Info ("Processing message: " ++ msg) st) as [s0 [u0|e0]];
    simpl in H0; [|injection H as <- <-; right; eauto].
  unfold bind at 1 in H. pose proof (K1 s0) as H1.
  destruct (process_chat_message w msg s0) as [s1 [res|e]]; simpl in H1;
    [|injection H as <- <-; right; exists e; split; [reflexivity | congruence]].
  unfold bind at 1 in H. unfold response_of, ret, raise in H.
  destruct (res !! "response") as [text|];
    [|injection H as <- <-; right; eexists; split; [reflexivity | congruence]].
  unfold bind at 1 in H. pose proof (K0 ("Response: " ++ text) s1) as H2.
  destruct (log Info ("Response: " ++ text) s1) as [s2 [u2|e2]];
    simpl in H2; [|injection H as <- <-; right; exists e2; split; [reflexivity | congruence]].
  unfold append_history in H. injection H as <- <-.
  left. exists text. simpl. split; [reflexivity | congruence].
Qed.

Lemma chat_loop_history (world_of : nat -> World) i msgs st :
  exists answers,
    length answers <= length msgs
    /\ history (fst (chat_loop world_of i msgs st))
       = (history st ++ recorded msgs answers)%list
    /\ (snd (chat_loop world_of i msgs st) = Val tt -> length answers = length msgs).
Proof.
  revert i st. induction msgs as [|msg rest IH]; intros i st.
  - exists []. simpl. rewrite app_nil_r. auto.
  - cbn [chat_loop]. rewrite bind_state. unfold bind.
    destruct (chat_turn (world_of i) msg st) as [s1 r] eqn:E.
    destruct (chat_turn_history (world_of i) msg st s1 r E)
      as [(a & -> & Hh) | (e & -> & Hh)].
    + destruct (IH (S i) s1) as (answers & Hlen & Hhist & Hdone).
      exists (a :: answers). split; [simpl; lia|]. split.
      * rewrite Hhist, Hh. unfold recorded. simpl. now rewrite <- app_assoc.
      * intros H. simpl. f_equal. now apply Hdone.
    + exists []. split; [simpl; lia|]. split; [|discriminate].
      unfold recorded. simpl. now rewrite app_nil_r.
Qed.


(** [main] starts from an empty history, so what it leaves is exactly the
    turns of the test messages it handled. *)
Lemma main_history (w : World) world_of st :
  exists answers,
    length answers <= 3
    /\ history (fst (main w world_of st)) = recorded test_messages answers
    /\ (snd (main w world_of st) = Val tt -> length answers = 3).
Proof.
  change (main w world_of st)
    with (chat_loop world_of 0 test_messages
            {| trace := ((trace st
                          ++ [EvLog Info ("Starting main function. Platform: " ++ platform w)])
                         ++ [EvLog Info ("Event loop policy: " ++ loop_policy w)])%list;
               history := [];
               agent_session := agent_session st |}).
  match goal with
  | |- context [chat_loop world_of 0 test_messages ?s] =>
      destruct (chat_loop_history world_of 0 test_messages s) as (answers & H1 & H2 & H3)
  end.
  exists answers. simpl in H2. auto.
Qed.

End ChatLoop.

(** ** The script run *)

Section ScriptRun.

Import App.

Lemma mk_turn_user u a : mk_turn u a !! "user" = Some u.
Proof. unfold mk_turn. apply lookup_insert_eq. Qed.

Lemma mk_turn_assistant u a : mk_turn u a !! "assistant" = Some a.
Proof.
  unfold mk_turn. rewrite lookup_insert_ne by discriminate. apply lookup_insert_eq.
Qed.

Lemma set_assistant_mk_turn u a b : <["assistant" := b]> (mk_turn u a) = mk_turn u b.
Proof.
  unfold mk_turn. rewrite insert_insert_ne by discriminate.
  now rewrite insert_insert_eq.
Qed.

Lemma set_last_assistant_snoc a h t :
  set_last_assistant a (h ++ [t]) = (h ++ [<["assistant" := a]> t])%list.
Proof.
  induction h as [|x h IH]; [reflexivity|].
  cbn [app set_last_assistant]. rewrite IH.
  destruct (h ++ [t])%list eqn:E; [|reflexivity].
  now destruct h.
Qed.

Lemma show_history_ok h :
  Forall (fun t => resolved_turn t \/ exists u, t = pending_turn u) h ->
  exists bs, show_history h = Val bs.
Proof.
  induction h as [|t h IH]; intros H; [eexists; reflexivity|].
  apply Forall_cons in H as [Ht Hh]. destruct (IH Hh) as [bs Hbs].
  cbn [show_history]. rewrite Hbs.
  destruct Ht as [(u & a & ->) | (u & ->)]; unfold pending_turn;
    rewrite mk_turn_user, mk_turn_assistant.
  - destruct (format_assistant_response_cases a) as (out & -> & _).
    eexists; reflexivity.
  - eexists; reflexivity.
Qed.

Lemma session_ok_shows ss :
  session_ok ss -> exists bs, show_history (conversation_history ss) = Val bs.
Proof.
  unfold session_ok. intros H. apply show_history_ok.
  destruct (processing ss).
  - destruct H as (h & u & _ & -> & Hh). apply Forall_app. split.
    + eapply Forall_impl; [exact Hh|]. auto.
    + constructor; [right; eauto | constructor].
  - eapply Forall_impl; [exact H|]. auto.
Qed.

(** What the [try] body hands back for a pending turn: the response text of
    the hosted wrapper, run on the user's message and on the history without
    the pending turn; or the cancellation of the hosting task. *)
Lemma answer_pending (w : World) h u :
  (exists text s,
     snd (process_user_message_async w u (init_state h)) = Val (mk_result text s)
     /\ answer w (h ++ [pending_turn u]) (pending_turn u) = Val text)
  \/ (snd (process_user_message_async w u (init_state h)) = Raise (Cancelled false)
      /\ answer w (h ++ [pending_turn u]) (pending_turn u) = Raise (Cancelled false)).
Proof.
  unfold answer, pending_turn. rewrite mk_turn_user, removelast_last.
  destruct (process_user_message_async_total w u (init_state h)) as [(r & Hr & _) | Hc].
  - destruct (process_user_message_async w u (init_state h)) as [s' r'] eqn:E.
    simpl in Hr. subst r'.
    destruct (process_user_message_async_shape w u _ _ _ E) as (text & s & ->).
    left. exists text, s. simpl. now rewrite mk_result_response.
  - right. rewrite Hc. auto.
Qed.

Lemma main_keeps_session_ok (w : World) user_input clear_clicked ss :
  session_ok ss -> session_ok (state (main w user_input clear_clicked ss)).
Proof.
  intros Hok. destruct (session_ok_shows ss Hok) as [bs Hbs].
  unfold main. rewrite Hbs. unfold session_ok in Hok.
  destruct (processing ss) eqn:Hp.
  - destruct Hok as (h & u & Hu & Hh & Hall).
    replace (match user_input with
             | Some text => PyStr.truthy text && negb true
             | None => false
             end) with false
      by (destruct user_input; [now rewrite andb_false_r | reflexivity]).
    cbn iota. rewrite Hh, last_snoc. unfold pending_turn at 1.
    rewrite mk_turn_assistant.
    destruct (answer_pending w h u) as [(text & s & _ & ->) | (_ & ->)].
    + cbn [state]. unfold session_ok. cbn [processing conversation_history].
      rewrite set_last_assistant_snoc. unfold pending_turn.
      rewrite set_assistant_mk_turn. apply Forall_app. split; [exact Hall|].
      constructor; [|constructor]. eexists _, _. reflexivity.
    + cbn [is_Exception state]. unfold session_ok. rewrite Hp. eauto.
  - destruct user_input as [text|]; [destruct (PyStr.truthy text) eqn:Ht|]; cbn [andb negb].
    + cbn [state]. unfold session_ok. cbn [processing conversation_history].
      exists (conversation_history ss), text. cbn [default option_rect].
      split; [intros ->; discriminate|]. split; [reflexivity | exact Hok].
    + destruct (conversation_history ss) as [|t l] eqn:E; [|destruct clear_clicked];
        cbn [state]; unfold session_ok; cbn [processing conversation_history];
        rewrite ?Hp, ?E; try exact Hok; constructor.
    + destruct (conversation_history ss) as [|t l] eqn:E; [|destruct clear_clicked];
        cbn [state]; unfold session_ok; cbn [processing conversation_history];
        rewrite ?Hp, ?E; try exact Hok; constructor.
Qed.

(** X14.  Along every session (any sequence of script runs from the initial
    state, whatever the user types or clicks and whatever the libraries
    answer) the history keeps its discipline: while the script is idle every
    turn has its answer; while it is processing exactly the last turn waits
    for one, and that turn holds a non-empty user message. *)
Theorem session_keeps_discipline (events : list (World * option string * bool)) :
  session_ok (session events initial_state).
Proof.
  assert (H : forall ss, session_ok ss -> session_ok (session events ss)).
  { induction events as [|[[w input] clear] rest IH]; intros ss Hok; [exact Hok|].
    cbn [session]. apply IH, main_keeps_session_ok, Hok. }
  apply H. constructor.
Qed.

Lemma processing_run (w : World) user_input clear_clicked ss :
  session_ok ss ->
  processing ss = true ->
  exists h u,
    conversation_history ss = (h ++ [pending_turn u])%list
    /\ Forall resolved_turn h
    /\ ((exists text s,
           snd (process_user_message_async w u (init_state h)) = Val (mk_result text s)
           /\ state (main w user_input clear_clicked ss)
              = {| conversation_history := (h ++ [mk_turn (VStr u) (VStr text)])%list;
                   processing := false;
                   input_key := input_key ss |}
           /\ ending (main w user_input clear_clicked ss) = Rerun)
        \/ (snd (process_user_message_async w u (init_state h)) = Raise (Cancelled false)
            /\ state (main w user_input clear_clicked ss) = ss
            /\ ending (main w user_input clear_clicked ss) = Failed (Cancelled false))).
Proof.
  intros Hok Hp. destruct (session_ok_shows ss Hok) as [bs Hbs].
  unfold session_ok in Hok. rewrite Hp in Hok.
  destruct Hok as (h & u & Hu & Hh & Hall).
  exists h, u. split; [exact Hh|]. split; [exact Hall|].
  unfold main. rewrite Hbs, Hp.
  replace (match user_input with
           | Some text => PyStr.truthy text && negb true
           | None => false
           end) with false
    by (destruct user_input; [now rewrite andb_false_r | reflexivity]).
  cbn iota. rewrite Hh, last_snoc.
  replace (pending_turn u !! "assistant") with (Some VNone)
    by (unfold pending_turn; now rewrite mk_turn_assistant).
  destruct (answer_pending w h u) as [(text & s & Hw & Ha) | (Hw & Ha)]; rewrite Ha.
  - left. exists text, s. split; [exact Hw|]. cbn [state ending].
    rewrite set_last_assistant_snoc. unfold pending_turn.
    rewrite set_assistant_mk_turn. auto.
  - right. split; [exact Hw|]. cbn [is_Exception state ending]. auto.
Qed.

(** X15.  A run of the script that finds a pending turn resolves it: it
    calls the hosted wrapper with the pending user message and the earlier
    turns, all of which have their answers, stores the response text of the
    wrapper as the answer of the pending turn, leaves the earlier turns and
    [input_key] alone, clears [processing] and asks for a rerun.  The only
    other outcome is that the hosting task is cancelled, which leaves the
    session state as it was.  The [except] clause of [main] is never the
    one that writes the answer. *)
Theorem pending_turn_resolved (w : World) user_input clear_clicked ss :
  session_ok ss ->
  processing ss = true ->
  exists h u,
    conversation_history ss = (h ++ [pending_turn u])%list
    /\ Forall resolved_turn h
    /\ ((exists text s,
           snd (process_user_message_async w u (init_state h)) = Val (mk_result text s)
           /\ state (main w user_input clear_clicked ss)
              = {| conversation_history := (h ++ [mk_turn (VStr u) (VStr text)])%list;
                   processing := false;
                   input_key := input_key ss |}
           /\ ending (main w user_input clear_clicked ss) = Rerun)
        \/ (snd (process_user_message_async w u (init_state h)) = Raise (Cancelled false)
            /\ state (main w user_input clear_clicked ss) = ss
            /\ ending (main w user_input clear_clicked ss) = Failed (Cancelled false))).
Proof. exact (processing_run w user_input clear_clicked ss). Qed.

Lemma pending_turn_resolved_witness :
  state (main Samples.w_found None false
           {| conversation_history := [pending_turn Samples.msg_chest];
              processing := true; input_key := 1 |})
  = {| conversation_history :=
         [mk_turn (VStr Samples.msg_chest)
            (VStr "Found consultants: [Dr. Perera - Cardiology]")];
       processing := false; input_key := 1 |}.
Proof.
  edestruct (pending_turn_resolved Samples.w_found None false
               {| conversation_history := [pending_turn Samples.msg_chest];
                  processing := true; input_key := 1 |})
    as (h & u & Hh & _ & _).
  - exists [], Samples.msg_chest. repeat split; [discriminate | constructor].
  - reflexivity.
  - vm_compute. reflexivity.
Defined.

(** X16.  In a session state that keeps the discipline, no run of the script
    ends in an [Exception]: no [KeyError] from a turn or a result, no
    [IndexError] from the columns.  A run asks for a rerun, reaches its end,
    or is cut short by the cancellation of the hosting task. *)
Theorem script_run_never_fails (w : World) user_input clear_clicked ss :
  session_ok ss ->
  ending (main w user_input clear_clicked ss) = Rerun
  \/ ending (main w user_input clear_clicked ss) = Finished
  \/ ending (main w user_input clear_clicked ss) = Failed (Cancelled false).
Proof.
  intros Hok. destruct (processing ss) eqn:Hp.
  - destruct (processing_run w user_input clear_clicked ss Hok Hp)
      as (h & u & _ & _ & Hcases).
    destruct Hcases as [(text & s & _ & _ & He) | (_ & _ & He)]; rewrite He; auto.
  - destruct (session_ok_shows ss Hok) as [bs Hbs].
    unfold main. rewrite Hbs, Hp.
    destruct user_input as [text|]; [destruct (PyStr.truthy text)|]; cbn [andb negb];
      try (left; reflexivity);
      destruct (conversation_history ss); try destruct clear_clicked; auto.
Qed.

Lemma script_run_never_fails_witness :
  ending (main Samples.w_classifier_down None false
            {| conversation_history := [pending_turn Samples.msg_chest];
               processing := true; input_key := 1 |}) = Rerun
  \/ ending (main Samples.w_classifier_down None false
               {| conversation_history := [pending_turn Samples.msg_chest];
                  processing := true; input_key := 1 |}) = Finished
  \/ ending (main Samples.w_classifier_down None false
               {| conversation_history := [pending_turn Samples.msg_chest];
                  processing := true; input_key := 1 |}) = Failed (Cancelled false).
Proof.
  apply (script_run_never_fails Samples.w_classifier_down None false
           {| conversation_history := [pending_turn Samples.msg_chest];
              processing := true; input_key := 1 |}).
  exists [], Samples.msg_chest. repeat split; [discriminate | constructor].
Defined.

End ScriptRun.

(** ** A deadline during the query *)

(** X17.  When the deadline of the wrapper fires after classification has
    succeeded, so that the cancellation leaves [process_chat_message], the
    wrapper returns the "timed out after 30 seconds" error result, adds no
    library call of its own, and [cleanup] has run exactly once. *)
Theorem timeout_releases_session (w : World) msg st st1 hp text :
  missing_variables w = [] ->
  analyze_symptoms w msg (entered w st) = (st1, Val (hp, text)) ->
  needs_clarification text = false ->
  PyStr.all_space msg = false ->
  snd (process_chat_message w msg st) = Raise (Cancelled true) ->
  process_user_message_async w msg st
  = (fst (process_chat_message w msg st),
     Val (mk_result "Error: Database query timed out after 30 seconds. Please check if the database server is running." "error"))
  /\ tally is_cleanup (fst (process_user_message_async w msg st))
     = tally is_cleanup st + 1.
Proof.
  intros Hmiss Han Hnc Hb Hc.
  destruct (classified_run_counts w msg st st1 hp text Hmiss Han Hnc) as (Hcl & _).
  assert (E : process_user_message_async w msg st
              = (fst (process_chat_message w msg st),
                 Val (mk_result "Error: Database query timed out after 30 seconds. Please check if the database server is running." "error"))).
  { unfold process_user_message_async. rewrite (not_blank_truthy msg Hb).
    unfold try_except, wait_for.
    destruct (process_chat_message w msg st) as [s' r]. simpl in Hc. subst r.
    reflexivity. }
  split; [exact E|]. rewrite E. exact Hcl.
Qed.

Lemma timeout_releases_session_witness :
  missing_variables Samples.w_query_cancelled = []
  /\ PyStr.all_space Samples.msg_chest = false
  /\ snd (process_user_message_async Samples.w_query_cancelled Samples.msg_chest
            (init_state []))
     = Val (mk_result "Error: Database query timed out after 30 seconds. Please check if the database server is running." "error")
  /\ tally is_cleanup
       (fst (process_user_message_async Samples.w_query_cancelled Samples.msg_chest
               (init_state []))) = 1.
Proof.
  split; [reflexivity|]. split; [reflexivity|].
  edestruct (timeout_releases_session Samples.w_query_cancelled Samples.msg_chest
               (init_state [])) as (H1 & H2).
  - reflexivity.
  - vm_compute. reflexivity.
  - reflexivity.
  - reflexivity.
  - vm_compute. reflexivity.
  - rewrite H2, H1. split; reflexivity.
Defined.

(** ** From a typed message to its answer *)

Section TwoRuns.

Import App.

(** X18.  A message typed while the script is idle is answered after two
    runs: the first run appends it as the pending turn and asks for a rerun;
    the second calls the hosted wrapper with that message and the whole
    earlier conversation and stores the response.  Afterwards the history is
    the earlier one followed by one resolved turn, [processing] is off and
    [input_key] has advanced by one.  If the hosting task is cancelled during
    the second run, the turn stays pending. *)
Theorem typed_message_answered (w1 w2 : World) text input2 clear1 clear2 ss :
  session_ok ss ->
  processing ss = false ->
  text <> EmptyString ->
  (exists answer s,
     snd (process_user_message_async w2 text (init_state (conversation_history ss)))
     = Val (mk_result answer s)
     /\ session [(w1, Some text, clear1); (w2, input2, clear2)] ss
        = {| conversation_history :=
               (conversation_history ss ++ [mk_turn (VStr text) (VStr answer)])%list;
             processing := false;
             input_key := S (input_key ss) |})
  \/ (snd (process_user_message_async w2 text (init_state (conversation_history ss)))
      = Raise (Cancelled false)
      /\ session [(w1, Some text, clear1); (w2, input2, clear2)] ss
         = {| conversation_history :=
                (conversation_history ss ++ [pending_turn text])%list;
              processing := true;
              input_key := S (input_key ss) |}).
Proof.
  intros Hok Hp Ht.
  destruct (session_ok_shows ss Hok) as [bs Hbs].
  assert (H1 : state (main w1 (Some text) clear1 ss)
               = {| conversation_history :=
                      (conversation_history ss ++ [pending_turn text])%list;
                    processing := true;
                    input_key := S (input_key ss) |}).
  { unfold main. rewrite Hbs, Hp.
    destruct text; [congruence | reflexivity]. }
  cbn [session]. rewrite H1.
  set (ss1 := {| conversation_history :=
                   (conversation_history ss ++ [pending_turn text])%list;
                 processing := true; input_key := S (input_key ss) |}).
  assert (Hok1 : session_ok ss1).
  { exists (conversation_history ss), text.
    unfold session_ok in Hok. rewrite Hp in Hok. auto. }
  destruct (processing_run w2 input2 clear2 ss1 Hok1 eq_refl)
    as (h & u & Hh & _ & Hcases).
  cbn [ss1 conversation_history] in Hh.
  apply app_inj_tail in Hh as [<- Hu].
  assert (u = text) as ->.
  { unfold pending_turn in Hu.
    apply (f_equal (fun t : turn => t !! "user")) in Hu.
    rewrite !mk_turn_user in Hu. congruence. }
  destruct Hcases as [(answer & s & Hw & Hs & _) | (Hw & Hs & _)].
  - left. exists answer, s. split; [exact Hw | exact Hs].
  - right. split; [exact Hw | exact Hs].
Qed.

Lemma typed_message_answered_witness :
  session_ok initial_state
  /\ session [(Samples.w_found, Some Samples.msg_chest, false);
              (Samples.w_found, None, false)] initial_state
     = {| conversation_history :=
            [mk_turn (VStr Samples.msg_chest)
               (VStr "Found consultants: [Dr. Perera - Cardiology]")];
          processing := false;
          input_key := 1 |}.
Proof.
  split; [constructor|].
  edestruct (typed_message_answered Samples.w_found Samples.w_found
               Samples.msg_chest None false false initial_state)
    as [(answer & s & Hw & Hs) | (Hw & _)].
  - constructor.
  - reflexivity.
  - discriminate.
  - rewrite Hs.
    assert (Hr : snd (process_user_message_async Samples.w_found Samples.msg_chest
                        (init_state (conversation_history initial_state)))
                 = Val (mk_result "Found consultants: [Dr. Perera - Cardiology]" "success"))
      by (vm_compute; reflexivity).
    rewrite Hr in Hw.
    apply (f_equal (fun r : result query_result =>
                      match r with Val x => x !! "response" | Raise _ => None end)) in Hw.
    cbn beta iota in Hw. rewrite !mk_result_response in Hw.
    now inversion Hw.
  - vm_compute in Hw. discriminate.
Defined.

End TwoRuns.
